(** * TB-Fast-Analysis: binning, number formatting, aggregation, heat maps

    A shallow embedding of [src/plotting.py] and of the channel loop of
    [src/fast_testbeam_analysis.py].  Numbers are exact rationals
    ([Q]): every finite double is one, and the decimal renderings below are
    the correctly rounded ones Python prints for that exact value.  Binary
    rounding of intermediate arithmetic (np.arange, np.log10, float division)
    is not modelled. *)

From Stdlib Require Import ZArith QArith Qround Qabs List Bool Ascii String Lia Lqa.
Import ListNotations.

Open Scope string_scope.
Open Scope Z_scope.

(** ** Python string operations used by the formatter *)

Module PyStr.

(** [c in s] for a one-character needle. *)
Fixpoint contains (c : ascii) (s : string) : bool :=
  match s with
  | EmptyString => false
  | String a s' => Ascii.eqb a c || contains c s'
  end.

(** [s.split(c)[-1]]: what follows the last occurrence of [c]
    (the whole string when [c] does not occur). *)
Fixpoint after_last (c : ascii) (s : string) : string :=
  match s with
  | EmptyString => EmptyString
  | String a s' =>
      if contains c s' then after_last c s'
      else if Ascii.eqb a c then s' else s
  end.

Definition is_digit (a : ascii) : bool :=
  let n := nat_of_ascii a in (48 <=? n)%nat && (n <=? 57)%nat.

Fixpoint all_digits (s : string) : bool :=
  match s with
  | EmptyString => true
  | String a s' => is_digit a && all_digits s'
  end.

(** Drop the zeros at the end of a digit string. *)
Fixpoint rstrip_zeros (s : string) : string :=
  match s with
  | EmptyString => EmptyString
  | String a s' =>
      match rstrip_zeros s' with
      | EmptyString => if Ascii.eqb a "0" then EmptyString else String a EmptyString
      | r => String a r
      end
  end.

End PyStr.

(** ** Decimal rendering of integers *)

Module Digits.

Definition digit_char (n : Z) : ascii := ascii_of_nat (48 + Z.to_nat (n mod 10)).

(** The [d] low decimal digits of [n], most significant first. *)
Fixpoint fixed_digits (d : nat) (n : Z) : string :=
  match d with
  | O => EmptyString
  | S d' => fixed_digits d' (n / 10) ++ String (digit_char n) EmptyString
  end.

(** Number of decimal digits of [n >= 0] (1 for 0). *)
Fixpoint count_digits (fuel : nat) (n : Z) : nat :=
  match fuel with
  | O => 1%nat
  | S f => if n <? 10 then 1%nat else S (count_digits f (n / 10))
  end.

Definition num_digits (n : Z) : nat := count_digits (Z.to_nat (Z.log2 n)) n.

(** [str(n)] for a Python int. *)
Definition int_str (n : Z) : string :=
  (if n <? 0 then "-" else "") ++ fixed_digits (num_digits (Z.abs n)) (Z.abs n).

End Digits.

(** ** Python floats and their [format] renderings *)

Inductive pyfloat : Type :=
| Fnum (q : Q)          (* a finite value; [Fnum 0] is +0.0 *)
| Fnegzero              (* -0.0 *)
| Finf (neg : bool)
| Fnan.

Inductive exn : Type :=
| OverflowError         (* int() of an infinity *)
| ValueError            (* int() of a nan; np.min of an empty array *)
| ZeroDivisionError     (* np.arange with a zero step *)
| UnboundLocalError.    (* a local variable read before any assignment *)

Inductive result (A : Type) : Type :=
| Ok (a : A)
| Raise (e : exn).
Arguments Ok {A} a.
Arguments Raise {A} e.

Definition bind {A B} (r : result A) (k : A -> result B) : result B :=
  match r with
  | Ok a => k a
  | Raise e => Raise e
  end.

Notation "x <- c ;; k" := (bind c (fun x => k))
  (at level 61, c at next level, right associativity).

Module PyFormat.
Import PyStr Digits.

(** [x == 0] on floats: both zeros compare equal to 0, nan does not. *)
Definition is_zero (x : pyfloat) : bool :=
  match x with
  | Fnum q => Qeq_bool q 0
  | Fnegzero => true
  | _ => false
  end.

Definition pow10 (n : nat) : Z := 10 ^ Z.of_nat n.

(** [q * 10^e] for any integer [e]. *)
Definition scale10 (q : Q) (e : Z) : Q :=
  if 0 <=? e then q * inject_Z (10 ^ e) else q / inject_Z (10 ^ (- e)).

(** Round a non-negative rational to the nearest integer, ties to even. *)
Definition round_half_even (q : Q) : Z :=
  let f := Qfloor q in
  match ((q - inject_Z f) ?= (1 # 2))%Q with
  | Lt => f
  | Gt => f + 1
  | Eq => if Z.even f then f else f + 1
  end.

(** Search upwards for the [e] with [10^e <= q < 10^(e+1)], from [e]. *)
Fixpoint log10_up (fuel : nat) (q : Q) (e : Z) : Z :=
  match fuel with
  | O => e
  | S f => if Qle_bool (inject_Z 10) q then log10_up f (q / inject_Z 10) (e + 1) else e
  end.

Fixpoint log10_down (fuel : nat) (q : Q) (e : Z) : Z :=
  match fuel with
  | O => e
  | S f => if Qle_bool 1 q then e else log10_down f (q * inject_Z 10) (e - 1)
  end.

(** [floor(log10(q))] for [q > 0]. *)
Definition floor_log10_pos (q : Q) : Z :=
  if Qle_bool 1 q
  then log10_up (S (Z.to_nat (Z.log2 (Qfloor q)))) q 0
  else log10_down (S (Z.to_nat (Z.log2 (Zpos (Qden q))))) q 0.

Definition sign_str (neg : bool) : string := if neg then "-" else "".

Definition is_neg (q : Q) : bool := negb (Qle_bool 0 q).

(** Digits [ip], then a point and [fp] unless [fp] is empty. *)
Definition with_fraction (ip fp : string) : string :=
  match fp with
  | EmptyString => ip
  | _ => ip ++ "." ++ fp
  end.

(** Fixed notation: digits, then nothing or a point and at least one digit. *)
Inductive plain_shape (s : string) : Prop :=
| plain_int : all_digits s = true -> s <> "" -> plain_shape s
| plain_frac ip fp :
    s = ip ++ "." ++ fp -> all_digits ip = true -> all_digits fp = true ->
    fp <> "" -> plain_shape s.

(** [f"{x:.{d}f}"] on a non-negative magnitude. *)
Definition fixed_mag (d : nat) (m : Q) : string :=
  let n := round_half_even (m * inject_Z (pow10 d)) in
  let ip := n / pow10 d in
  with_fraction (fixed_digits (num_digits ip) ip) (fixed_digits d n).

(** [f"{x:.{d}f}"]. *)
Definition format_f (d : nat) (x : pyfloat) : string :=
  match x with
  | Fnan => "nan"
  | Finf neg => sign_str neg ++ "inf"
  | Fnegzero => "-" ++ fixed_mag d 0
  | Fnum q => sign_str (is_neg q) ++ fixed_mag d (Qabs q)
  end.

(** The exponent field of the [e] notation: a sign and at least two digits. *)
Definition exp_str (e : Z) : string :=
  (if e <? 0 then "-" else "+") ++
  fixed_digits (Nat.max 2 (num_digits (Z.abs e))) (Z.abs e).

(** The [p] significant digits of [m > 0] as an integer [n] with
    [10^(p-1) <= n < 10^p], and the decimal exponent [x] of its first digit. *)
Definition sig_digits (p : nat) (m : Q) : Z * Z :=
  let e0 := floor_log10_pos m in
  let n := round_half_even (scale10 m (Z.of_nat p - 1 - e0)) in
  if n =? pow10 p then (pow10 (p - 1), e0 + 1) else (n, e0).

(** [f"{x:.{p}g}"] on a positive magnitude: fixed notation when the exponent
    [x] satisfies [-4 <= x < p], scientific otherwise; zeros at the end of
    the fraction are dropped, and the point with them when nothing is left. *)
Definition general_mag (p : nat) (m : Q) : string :=
  let '(n, x) := sig_digits p m in
  if (-4 <=? x) && (x <? Z.of_nat p) then
    let dec := Z.to_nat (Z.of_nat p - 1 - x) in
    let ip := n / pow10 dec in
    with_fraction (fixed_digits (num_digits ip) ip)
                  (rstrip_zeros (fixed_digits dec n))
  else
    with_fraction (fixed_digits 1 (n / pow10 (p - 1)))
                  (rstrip_zeros (fixed_digits (p - 1) n))
    ++ "e" ++ exp_str x.

(** [f"{x:.{p}g}"]; a precision of 0 is treated as 1. *)
Definition format_g (p : nat) (x : pyfloat) : string :=
  let p := Nat.max 1 p in
  match x with
  | Fnan => "nan"
  | Finf neg => sign_str neg ++ "inf"
  | Fnegzero => "-0"
  | Fnum q =>
      if Qeq_bool q 0 then "0"
      else sign_str (is_neg q) ++ general_mag p (Qabs q)
  end.

End PyFormat.

(** ** The significant-digit formatter (plotting.py, 283-323) *)

Module Formatter.
Import PyStr Digits PyFormat.

(** [int(np.floor(np.log10(abs(x))))]: log10 of a zero is -inf and of an
    infinity is inf, and [int] refuses both, as it refuses a nan. *)
Definition int_floor_log10_abs (x : pyfloat) : result Z :=
  match x with
  | Fnum q => if Qeq_bool q 0 then Raise OverflowError
              else Ok (floor_log10_pos (Qabs q))
  | Fnegzero => Raise OverflowError
  | Finf _ => Raise OverflowError
  | Fnan => Raise ValueError
  end.

(** [x / (10 ** e)]. *)
Definition div_pow10 (x : pyfloat) (e : Z) : pyfloat :=
  match x with
  | Fnum q => Fnum (scale10 q (- e))
  | other => other
  end.

Definition format_latex (num_val : pyfloat) (sig_digits : nat) : result string :=
  let sig_digits := if Nat.eqb sig_digits 0 then 3%nat else sig_digits in
  let num_str := format_g 3 num_val in
  if contains "e" num_str then
    exponent <- int_floor_log10_abs num_val ;;
    let mantissa := div_pow10 num_val exponent in
    Ok (format_f (sig_digits - 1) mantissa ++ "×10$^{" ++ int_str exponent ++ "}$")
  else Ok num_str.

Definition set_significant_digits_str (value uncertainty : pyfloat)
  : result (string * string) :=
  if is_zero uncertainty then
    v <- format_latex value 3 ;; Ok (v, int_str 0)
  else
    let uncertainty_str := format_g 3 uncertainty in
    let uncertainty_dec := 0%nat in
    let uncertainty_dig := 0%nat in
    if contains "e" uncertainty_str then
      v <- format_latex value 3 ;;
      u <- format_latex uncertainty 3 ;;
      Ok (v, u)
    else
      let uncertainty_prec :=
        if contains "." uncertainty_str
        then String.length (after_last "." uncertainty_str) else 0%nat in
      let '(uncertainty_dec, uncertainty_dig) :=
        if (0 <? uncertainty_prec)%nat
        then ((uncertainty_dec + uncertainty_prec)%nat, uncertainty_dig)
        else (uncertainty_dec, (uncertainty_dig + String.length uncertainty_str)%nat) in
      let value_str :=
        if Nat.eqb uncertainty_dec 0 then
          if (0 <? uncertainty_dig)%nat then format_g uncertainty_dig value
          else format_g 3 value
        else format_f uncertainty_dec value in
      Ok (value_str, uncertainty_str).

(** The doubles nearest to 12.345 and to 0.12. *)
Definition d12_345 : Q := 6949617174986097 # 562949953421312.
Definition d0_12 : Q := 1080863910568919 # 9007199254740992.

(** A rendering with a decimal point followed by exactly [d] digits. *)
Definition has_decimals (d : nat) (s : string) : Prop :=
  exists ip fp, s = ip ++ "." ++ fp /\ contains "." ip = false /\
                all_digits fp = true /\ String.length fp = d.

Definition is_finite (x : pyfloat) : bool :=
  match x with
  | Fnum _ | Fnegzero => true
  | _ => false
  end.

End Formatter.

(** ** Bin edges (plotting.py, 44-49 and 326-327) *)

Module Binning.

(** Python's [min(a, b)]: [b] only when it is strictly smaller. *)
Definition py_min (a b : Q) : Q := if Qle_bool a b then a else b.
Definition py_max (a b : Q) : Q := if Qle_bool b a then a else b.

Definition np_min (data : list Q) : result Q :=
  match data with
  | [] => Raise ValueError
  | x :: t => Ok (fold_left py_min t x)
  end.

Definition np_max (data : list Q) : result Q :=
  match data with
  | [] => Raise ValueError
  | x :: t => Ok (fold_left py_max t x)
  end.

(** The values [start + i * w] for [i] from [a], [n] of them. *)
Definition ramp (start w : Q) (a n : nat) : list Q :=
  map (fun i => start + inject_Z (Z.of_nat i) * w)%Q (seq a n).

(** [np.arange(start, stop, step)]: [ceil((stop - start) / step)] values
    [start + i * step] (none when that count is not positive). *)
Definition np_arange (start stop step : Q) : result (list Q) :=
  if Qeq_bool step 0 then Raise ZeroDivisionError
  else
    let n := Z.to_nat (Qceiling ((stop - start) / step)) in
    Ok (ramp start step 0 n).

Definition get_equal_bins (min_val max_val step : Q) : result (list Q) :=
  np_arange min_val (max_val + step) step.

(** What [ax.hist] receives as [bins]. *)
Inductive bins : Type :=
| BinsAuto
| BinsCount (n : Z)
| BinsEdges (edges : list Q).

(** Truth value of an optional number: [None] and zero are false. *)
Definition truthy_Z (o : option Z) : bool :=
  match o with
  | Some n => negb (n =? 0)
  | None => false
  end.

Definition truthy_Q (o : option Q) : bool :=
  match o with
  | Some q => negb (Qeq_bool q 0)
  | None => false
  end.

(** The [elif bin_step:] arm, line 47-49. *)
Definition step_bins (bin_step : option Q) (data : list Q) : result bins :=
  match bin_step with
  | Some w =>
      if truthy_Q (Some w) then
        lo <- np_min data ;;
        let min_val := py_min lo 0 in
        hi <- np_max data ;;
        e <- get_equal_bins min_val hi w ;;
        Ok (BinsEdges e)
      else Ok BinsAuto
  | None => Ok BinsAuto
  end.

(** Lines 44-49 of [plot_1d_hist]. *)
Definition hist_bins (bin_num : option Z) (bin_step : option Q) (data : list Q)
  : result bins :=
  match bin_num with
  | Some n => if truthy_Z (Some n) then Ok (BinsCount n) else step_bins bin_step data
  | None => step_bins bin_step data
  end.



End Binning.

(** ** The tabular dataset *)

Module Dataset.

Record HitRecord : Type := {
  event_id : Z;
  layer_id : Z;
  channel_id : Z;
  amplitude : Q;
  shower_energy : Q
}.

Definition DataFrame := list HitRecord.

(** Drop every later element equal to an earlier one. *)
Fixpoint drop_duplicates {A : Type} (eqb : A -> A -> bool) (l : list A) : list A :=
  match l with
  | [] => []
  | x :: t => x :: filter (fun y => negb (eqb x y)) (drop_duplicates eqb t)
  end.

Definition pairZ_eqb (a b : Z * Z) : bool :=
  (fst a =? fst b) && (snd a =? snd b).

Definition pairZQ_eqb (a b : Z * Q) : bool :=
  (fst a =? fst b) && Qeq_bool (snd a) (snd b).

(** Modelled from the spec: [df_handling.filter_df] is not among the sources;
    "select all hit rows with that layer_id" (and, with a channel, "rows
    filtered to both a specific layer_id and channel_id"). *)
Definition filter_df (df : DataFrame) (planes : Z) (channels : option Z) : DataFrame :=
  filter (fun r => (layer_id r =? planes) &&
                   match channels with
                   | Some c => channel_id r =? c
                   | None => true
                   end) df.

(** Modelled from the spec: [df_handling.unique_df] is not among the sources;
    "deduplicate to one row per (event_id, channel_id)" and, on the
    (event_id, shower_energy) columns, deduplication of those rows.  Equal
    rows are dropped, the first of each kept. *)
Definition unique_df {A : Type} (eqb : A -> A -> bool) (rows : list A) : list A :=
  drop_duplicates eqb rows.

(** [len(np.unique(df[EVENT_ID_COL].to_numpy()))]. *)
Definition num_events (df : DataFrame) : Z :=
  Z.of_nat (List.length (drop_duplicates Z.eqb (map event_id df))).

(** Modelled from the spec: [tb_helpers_v2025.get_layer_energies] is not
    among the sources; "select all hit rows with that layer_id, without
    deduplication (each hit contributes once)". *)
Definition get_layer_energies (df : DataFrame) (layer : Z) : list Q :=
  map amplitude (filter_df df layer None).

(** The invariant of the data model: one shower energy per event. *)
Definition energy_per_event (df : DataFrame) : Prop :=
  forall r1 r2, In r1 df -> In r2 df ->
    event_id r1 = event_id r2 -> (shower_energy r1 == shower_energy r2)%Q.

(** Rows of (id, value) in which the id determines the value. *)
Definition determined (rows : list (Z * Q)) : Prop :=
  forall r1 r2, In r1 rows -> In r2 rows -> fst r1 = fst r2 -> (snd r1 == snd r2)%Q.

(** Lines 225-226: the (event, channel) pairs of a layer, each once. *)
Definition layer_pairs (df : DataFrame) (layer : Z) : list (Z * Z) :=
  let channel_data := filter_df df layer None in
  unique_df pairZ_eqb (map (fun r => (event_id r, channel_id r)) channel_data).

(** Lines 119-120: the sample handed to the shower-energy histogram. *)
Definition showers (df : DataFrame) : list (Z * Q) :=
  unique_df pairZQ_eqb (map (fun r => (event_id r, shower_energy r)) df).

Definition shower_energies (df : DataFrame) : list Q := map snd (showers df).

End Dataset.

(** ** Arrays, the plotting backend and the run configuration *)

Module Backend.
Import Binning.

(** numpy arrays are objects: a grid lives in the heap and is passed around
    by reference. *)
Definition loc := nat.
Definition grid := list (list pyfloat).

Record colormap : Type := {
  cmap_name : string;
  cmap_under : option string     (* colour of the values below the range *)
}.

Inductive norm : Type :=
| LogNorm.

Inductive axes : Type :=
| NewAxes                (* the axes of a figure made by the callee *)
| FigAxes (n : nat).     (* axes number [n] of the caller's figure *)

(** Calls into matplotlib and [warnings], in the order they are made. *)
Inductive event : Type :=
| Warn (msg : string)
| Subplots (rows cols : nat)
| AxHist (ax : axes) (data : list Q) (b : bins)
| AxGrid (ax : axes)
| SetXlim (ax : axes) (lo hi : Q)
| SetYlim (ax : axes) (lo hi : Q)
| SetYscaleLog (ax : axes)
| SetTitle (ax : axes) (s : string)
| SetXlabel (ax : axes) (s : string)
| SetYlabel (ax : axes) (s : string)
| AxLegend (ax : axes) (entries : list string)
| Imshow (ax : axes) (data : loc) (shown : grid) (vmin vmax : option Q)
         (cmap : colormap) (colorscale : option norm)
| SetXticks (ax : axes) (ticks : list Z)
| SetYticks (ax : axes) (ticks labels : list Z)
| Axhline (ax : axes) (y : Q)
| Axvline (ax : axes) (x : Q)
| Delaxes (n : nat)
| Colorbar (im : nat)
| SaveFig (full_path : string)
| CloseAll.

Record world : Type := {
  heap : loc -> grid;
  next_loc : loc;
  log : list event
}.

(** What the sources import from modules that are not among them. *)
Record env : Type := {
  np_mean : list Q -> pyfloat;
  np_std : list Q -> pyfloat;
  verify_file_extension : string -> string -> string;
  RESULTS_DIR : string;
  RUN_NUM : Z;
  LAYERS : list Z;
  CHANNELS : list Z;
  pad_channel : nat -> nat -> Z   (* the channel at a row and column of the pad grid *)
}.

(** State and exceptions. *)
Definition M (A : Type) : Type := world -> result A * world.

Definition ret {A} (a : A) : M A := fun w => (Ok a, w).

Definition bindM {A B} (m : M A) (k : A -> M B) : M B :=
  fun w => match m w with
           | (Ok a, w') => k a w'
           | (Raise e, w') => (Raise e, w')
           end.

Definition lift {A} (r : result A) : M A := fun w => (r, w).

(** The world after further calls: the arrays as they are. *)
Definition grow (w : world) (evs : list event) : world :=
  {| heap := heap w; next_loc := next_loc w; log := log w ++ evs |}.

Definition record (e : event) (w : world) : world := grow w [e].

Definition emit (e : event) : M unit := fun w => (Ok tt, record e w).



Definition update (h : loc -> grid) (l : loc) (g : grid) : loc -> grid :=
  fun l' => if Nat.eqb l' l then g else h l'.

Definition read (l : loc) : M grid := fun w => (Ok (heap w l), w).

Definition write (l : loc) (g : grid) : M unit :=
  fun w => (Ok tt, {| heap := update (heap w) l g; next_loc := next_loc w; log := log w |}).

Definition alloc (g : grid) : M loc :=
  fun w => (Ok (next_loc w),
            {| heap := update (heap w) (next_loc w) g;
               next_loc := S (next_loc w); log := log w |}).

Fixpoint for_each {A S : Type} (body : S -> A -> M S) (l : list A) (s : S) : M S :=
  match l with
  | [] => ret s
  | a :: t => bindM (body s a) (fun s' => for_each body t s')
  end.

End Backend.

Notation "x <~ c ;; k" := (Backend.bindM c (fun x => k))
  (at level 61, c at next level, right associativity).
Notation "c ;;; k" := (Backend.bindM c (fun _ => k))
  (at level 61, right associativity).

(** ** The charts (plotting.py) *)

Module Plotting.
Import PyStr Digits PyFormat Formatter Binning Dataset Backend.

Definition newline : string := String (ascii_of_nat 10) EmptyString.

Definition when (b : bool) (m : M unit) : M unit := if b then m else ret tt.

Definition style_fig (ax : axes) (title x_label y_label : string)
    (x_lim y_lim : option (Q * Q)) (y_log : bool) (legend_lst : option (list string))
  : M unit :=
  match x_lim with
  | Some (lo, hi) => emit (SetXlim ax lo hi)
  | None => ret tt
  end ;;;
  match y_lim with
  | Some (lo, hi) => emit (SetYlim ax lo hi)
  | None => ret tt
  end ;;;
  when y_log (emit (SetYscaleLog ax)) ;;;
  let y_label := if y_log then y_label ++ " (log scale)" else y_label in
  emit (SetTitle ax title) ;;;
  emit (SetXlabel ax x_label) ;;;
  emit (SetYlabel ax y_label) ;;;
  match legend_lst with
  | Some l => emit (AxLegend ax l)
  | None => ret tt
  end.

Definition save_fig (E : env) (path out_filename : string) : M unit :=
  let full_path := path ++ "/" ++ out_filename in
  let full_path := verify_file_extension E full_path ".png" in
  emit (SaveFig full_path).

Record hist_args : Type := {
  h_data : option (list Q);
  h_ax : option nat;
  h_bin_num : option Z;
  h_bin_step : option Q;
  h_log : bool;
  h_title : string;
  h_x_label : string;
  h_y_label : string;
  h_path : string;
  h_out_filename : option string;
  h_x_lim : option (Q * Q);
  h_y_lim : option (Q * Q)
}.

(** The defaults of the signature of [plot_1d_hist]. *)
Definition hist_defaults (data : option (list Q)) : hist_args :=
  {| h_data := data; h_ax := None; h_bin_num := None; h_bin_step := None;
     h_log := false; h_title := "Histogram"; h_x_label := "";
     h_y_label := "Entries"; h_path := "./"; h_out_filename := None;
     h_x_lim := None; h_y_lim := None |}.

(** [data is None or len(data) == 0]. *)
Definition null_or_empty (data : option (list Q)) : bool :=
  match data with
  | None | Some [] => true
  | Some _ => false
  end.

Definition with_bins (a : hist_args) (bin_num : option Z) (bin_step : option Q)
  : hist_args :=
  {| h_data := h_data a; h_ax := h_ax a; h_bin_num := bin_num;
     h_bin_step := bin_step; h_log := h_log a; h_title := h_title a;
     h_x_label := h_x_label a; h_y_label := h_y_label a; h_path := h_path a;
     h_out_filename := h_out_filename a; h_x_lim := h_x_lim a;
     h_y_lim := h_y_lim a |}.

Definition plot_1d_hist (E : env) (a : hist_args) : M unit :=
  match h_data a with
  | None | Some [] => emit (Warn "Cannot plot empty data.")
  | Some data =>
      ax_save <~ match h_ax a with
                 | None => emit (Subplots 1 1) ;;; ret (NewAxes, true)
                 | Some n => ret (FigAxes n, false)
                 end ;;
      let '(ax, save) := ax_save in
      let out_filename := match h_out_filename a with
                          | None => h_title a
                          | Some f => f
                          end in
      bins <~ lift (hist_bins (h_bin_num a) (h_bin_step a) data) ;;
      let mean_val := np_mean E data in
      let std_val := np_std E data in
      let entry_count := Z.of_nat (List.length data) in
      emit (AxHist ax data bins) ;;;
      emit (AxGrid ax) ;;;
      strs <~ lift (set_significant_digits_str mean_val std_val) ;;
      let '(mean_str, std_str) := strs in
      let legend_lst := ["Entries = " ++ int_str entry_count ++ newline ++
                         "Mean Value = " ++ mean_str ++ newline ++
                         "Std = " ++ std_str] in
      style_fig ax (h_title a) (h_x_label a) (h_y_label a) (h_x_lim a) (h_y_lim a)
                (h_log a) (Some legend_lst) ;;;
      when save (save_fig E (h_path a) out_filename)
  end.

Definition run_path (E : env) : string :=
  RESULTS_DIR E ++ "/Run " ++ int_str (RUN_NUM E) ++ "/".

Definition plot_channel_energy_dist (E : env) (df : DataFrame) (pad_num layer_num : Z)
  : M unit :=
  let channel_df := filter_df df layer_num (Some pad_num) in
  let channel_energies := map amplitude channel_df in
  let path := run_path E in
  let path := path ++ "Energy per channel/Layer " ++ int_str layer_num ++ "/" in
  plot_1d_hist E
    {| h_data := Some channel_energies; h_ax := None; h_bin_num := None;
       h_bin_step := Some 1%Q; h_log := false;
       h_title := "Channel " ++ int_str pad_num ++ " Layer " ++ int_str layer_num;
       h_x_label := "ADC counts"; h_y_label := "Entries"; h_path := path;
       h_out_filename := Some ("Channel_" ++ int_str pad_num ++ "_layer_" ++
                               int_str layer_num ++ "_energy_distribution.png");
       h_x_lim := None; h_y_lim := None |} ;;;
  emit CloseAll.

Definition plot_shower_energy_dist (E : env) (df : DataFrame) : M unit :=
  let shower_energies := shower_energies df in
  let path := run_path E in
  plot_1d_hist E
    {| h_data := Some shower_energies; h_ax := None; h_bin_num := None;
       h_bin_step := Some 100%Q; h_log := false;
       h_title := "Total energy distribution (showers)";
       h_x_label := "ADC counts"; h_y_label := "Entries"; h_path := path;
       h_out_filename := Some "Shower_energy_distribution.png";
       h_x_lim := None; h_y_lim := None |} ;;;
  emit CloseAll.

(** The channel loop of [plot_manager] for one layer
    (fast_testbeam_analysis.py, 26-27). *)
Definition plot_channels (E : env) (df : DataFrame) (layer : Z) (channels : list Z)
  : M unit :=
  for_each (fun _ channel => plot_channel_energy_dist E df channel layer) channels tt.

End Plotting.

(** ** Heat maps and the channel-frequency chart (plotting.py, 149-239) *)

Module Heatmap.
Import PyStr Digits PyFormat Formatter Binning Dataset Backend Plotting.

Definition sentinel : pyfloat := Fnum (-1).

(** [data[data == 0] = -1] on the contents of the array. *)
Definition mask_zeros (g : grid) : grid :=
  map (map (fun x => if is_zero x then sentinel else x)) g.


Definition adjust_colors (data : loc) (log : bool)
  : M (loc * colormap * option norm) :=
  g <~ read data ;;
  write data (mask_zeros g) ;;;
  let cmap := {| cmap_name := "jet"; cmap_under := None |} in
  let cmap := {| cmap_name := cmap_name cmap; cmap_under := Some "white" |} in
  let colorscale := if log then Some LogNorm else None in
  ret (data, cmap, colorscale).

Definition rows : nat := 13.
Definition cols : nat := 20.

Definition half_plus (i : nat) : Q := (1 # 2) + inject_Z (Z.of_nat i).

Definition set_heatmap_properties (ax : axes) : M unit :=
  let y_labels := map (fun i => Z.of_nat rows - Z.of_nat i - 1) (seq 0 rows) in
  emit (SetXticks ax (map Z.of_nat (seq 0 cols))) ;;;
  emit (SetYticks ax (map Z.of_nat (seq 0 rows)) y_labels) ;;;
  for_each (fun _ i =>
              when (i <? rows - 1)%nat (emit (Axhline ax (half_plus i))) ;;;
              emit (Axvline ax (half_plus i)))
           (seq 0 (cols - 1)) tt.

(** [ax.imshow(data, ...)]: the array is handed over by reference; the event
    also keeps what it holds at the time of the call.  The image returned is
    named by the position of the event. *)
Definition imshow (ax : axes) (data : loc) (v_min v_max : option Q)
    (cmap : colormap) (colorscale : option norm) : M nat :=
  fun w => (Ok (List.length (log w)),
            record (Imshow ax data (heap w data) v_min v_max cmap colorscale) w).

Record heatmap_args : Type := {
  m_fig : option nat;
  m_ax : option nat;
  m_log : bool;
  m_title : string;
  m_x_label : string;
  m_y_label : string;
  m_path : string;
  m_out_filename : option string;
  m_v_min : option Q;
  m_v_max : option Q
}.

Definition heatmap_defaults : heatmap_args :=
  {| m_fig := None; m_ax := None; m_log := false; m_title := "Heatmap";
     m_x_label := ""; m_y_label := ""; m_path := "./"; m_out_filename := None;
     m_v_min := None; m_v_max := None |}.

Definition plot_heatmap (E : env) (data : loc) (a : heatmap_args) : M nat :=
  ax_save <~ match m_fig a, m_ax a with
             | Some _, Some n => ret (FigAxes n, false)
             | _, _ => emit (Subplots 1 1) ;;; ret (NewAxes, true)
             end ;;
  let '(ax, save) := ax_save in
  let out_filename := match m_out_filename a with
                      | None => m_title a
                      | Some f => f
                      end in
  adjusted <~ adjust_colors data (m_log a) ;;
  let '(freq, cmap, colorscale) := adjusted in
  im <~ imshow ax data (m_v_min a) (m_v_max a) cmap colorscale ;;
  set_heatmap_properties ax ;;;
  style_fig ax (m_title a) (m_x_label a) (m_y_label a) None None false None ;;;
  when save (save_fig E (m_path a) out_filename) ;;;
  ret im.

(** Modelled from the spec: [tb_helpers_v2025.calc_freq] is not among the
    sources; "tally hits per channel position into the 13x20 grid".  The cell
    at a row and column counts the hits of the channel placed there. *)
Definition calc_freq (E : env) (channel_hits : list Z) : grid :=
  map (fun r =>
         map (fun c => Fnum (inject_Z (Z.of_nat
                (count_occ Z.eq_dec channel_hits (pad_channel E r c)))))
             (seq 0 cols))
      (seq 0 rows).

(** A float divided by an integer count: a zero count gives nan or an
    infinity, as numpy does. *)
Definition div_count (x : pyfloat) (n : Z) : pyfloat :=
  match x with
  | Fnum q =>
      if n =? 0 then (if Qeq_bool q 0 then Fnan else Finf (is_neg q))
      else Fnum (q / inject_Z n)
  | Fnegzero => if n =? 0 then Fnan else Fnegzero
  | other => other
  end.

(** Lines 225-229: the grid of one layer, before it is displayed. *)
Definition channel_frequency (E : env) (df : DataFrame) (layer : Z) : grid :=
  let num_events := num_events df in
  let channel_data := layer_pairs df layer in
  let channel_hits := map snd channel_data in
  let freq := calc_freq E channel_hits in
  map (map (fun x => div_count x num_events)) freq.

Definition cell (g : grid) (r c : nat) : option pyfloat :=
  match nth_error g r with
  | Some row => nth_error row c
  | None => None
  end.



Definition plot_channel_frequency (E : env) (df : DataFrame) : M unit :=
  let layers := LAYERS E in
  emit (Subplots 3 4) ;;;
  let path := run_path E in
  st <~ for_each
          (fun (st : nat * option nat) layer =>
             let '(i, _) := st in
             let ax_num := if (8 <=? i)%nat then (i + 1)%nat else i in
             freq <~ alloc (channel_frequency E df layer) ;;
             im <~ plot_heatmap E freq
                     {| m_fig := Some 0%nat; m_ax := Some ax_num; m_log := false;
                        m_title := "Heatmap"; m_x_label := "Column";
                        m_y_label := "Row"; m_path := path;
                        m_out_filename := None;
                        m_v_min := Some 0%Q; m_v_max := Some 1%Q |} ;;
             emit (SetTitle (FigAxes ax_num) ("Layer " ++ int_str layer)) ;;;
             ret (S i, Some im))
          layers (0%nat, None) ;;
  emit (Delaxes 8) ;;;
  emit (Delaxes 11) ;;;
  match snd st with
  | Some im => emit (Colorbar im)
  | None => lift (Raise UnboundLocalError)
  end ;;;
  save_fig E path "Channels_frequency_all_layers" ;;;
  emit CloseAll.

End Heatmap.

(** ** The layer charts and the channel loop
       (plotting.py, 111-146; fast_testbeam_analysis.py, 24-27) *)

Module Charts.
Import PyStr Digits PyFormat Formatter Binning Dataset Backend Plotting Heatmap.

(** [plt.subplots(3, 4)] flattened: twelve axes. *)
Definition n_axes : nat := 12.

(** Lines 136-138: the position of the [i]-th layer among the axes. *)
Definition layer_axes (i : nat) : nat := if (8 <=? i)%nat then (i + 1)%nat else i.

(** What a chart can fail with: an exception of the calls it makes, or an
    index past the end of the axes. *)
Inductive error : Type :=
| Exception (e : exn)
| IndexError.

Definition MI (A : Type) : Type := world -> (A + error) * world.

Definition retI {A} (a : A) : MI A := fun w => (inl a, w).

Definition bindI {A B} (m : MI A) (k : A -> MI B) : MI B :=
  fun w => match m w with
           | (inl a, w') => k a w'
           | (inr e, w') => (inr e, w')
           end.

Definition run {A} (m : M A) : MI A :=
  fun w => match m w with
           | (Ok a, w') => (inl a, w')
           | (Raise e, w') => (inr (Exception e), w')
           end.

(** [ax[ax_num]]. *)
Definition index_axes (ax_num : nat) : MI nat :=
  fun w => if (ax_num <? n_axes)%nat then (inl ax_num, w) else (inr IndexError, w).

Fixpoint for_eachI {A S : Type} (body : S -> A -> MI S) (l : list A) (s : S) : MI S :=
  match l with
  | [] => retI s
  | a :: t => bindI (body s a) (fun s' => for_eachI body t s')
  end.

Definition plot_layer_energy_dist (E : env) (df : DataFrame) (layer_num : Z)
    (path : string) (ax : nat) : M unit :=
  let layer_energies := get_layer_energies df layer_num in
  plot_1d_hist E
    {| h_data := Some layer_energies; h_ax := Some ax; h_bin_num := None;
       h_bin_step := Some 10%Q; h_log := false;
       h_title := "Total energy distribution - layer " ++ int_str layer_num;
       h_x_label := "ADC counts"; h_y_label := "Entries"; h_path := path;
       h_out_filename := Some ("Layer_" ++ int_str layer_num ++
                               "_energy_distribution.png");
       h_x_lim := None; h_y_lim := None |}.

Definition plot_all_layers_energy_dist (E : env) (df : DataFrame) : MI unit :=
  let layers := LAYERS E in
  bindI (run (emit (Subplots 3 4))) (fun _ =>
  let path := run_path E in
  bindI (for_eachI
           (fun (i : nat) layer =>
              let ax_num := layer_axes i in
              bindI (index_axes ax_num) (fun ax =>
              bindI (run (plot_layer_energy_dist E df layer path ax)) (fun _ =>
              bindI (run (emit (SetTitle (FigAxes ax) ("Layer " ++ int_str layer))))
                    (fun _ => retI (S i)))))
           layers 0%nat) (fun _ =>
  run (emit (Delaxes 8) ;;; emit (Delaxes 11) ;;;
       save_fig E path "Energy_dist_all_layers" ;;; emit CloseAll))).

(** fast_testbeam_analysis.py, 24-27: every channel of every layer. *)
Definition plot_all_channels (E : env) (df : DataFrame) : M unit :=
  for_each (fun _ layer => plot_channels E df layer (CHANNELS E)) (LAYERS E) tt.

(** *** Looking at the log *)

Definition is_warn (e : event) : bool :=
  match e with Warn _ => true | _ => false end.
Definition is_hist (e : event) : bool :=
  match e with AxHist _ _ _ => true | _ => false end.
Definition is_subplots (e : event) : bool :=
  match e with Subplots _ _ => true | _ => false end.
Definition is_savefig (e : event) : bool :=
  match e with SaveFig _ => true | _ => false end.
Definition is_close (e : event) : bool :=
  match e with CloseAll => true | _ => false end.
Definition is_image (e : event) : bool :=
  match e with Imshow _ _ _ _ _ _ _ => true | _ => false end.

Definition count (p : event -> bool) (evs : list event) : nat :=
  List.length (filter p evs).

(** The axes a call draws on or styles, if any. *)
Definition target (e : event) : option axes :=
  match e with
  | AxHist ax _ _ | AxGrid ax | SetXlim ax _ _ | SetYlim ax _ _
  | SetYscaleLog ax | SetTitle ax _ | SetXlabel ax _ | SetYlabel ax _
  | AxLegend ax _ | Imshow ax _ _ _ _ _ _ | SetXticks ax _ | SetYticks ax _ _
  | Axhline ax _ | Axvline ax _ => Some ax
  | _ => None
  end.

(** The calls of [style_fig], in order. *)
Definition style_events (ax : axes) (title x_label y_label : string)
    (x_lim y_lim : option (Q * Q)) (y_log : bool) (legend_lst : option (list string))
  : list event :=
  (match x_lim with Some (lo, hi) => [SetXlim ax lo hi] | None => [] end ++
   match y_lim with Some (lo, hi) => [SetYlim ax lo hi] | None => [] end ++
   (if y_log then [SetYscaleLog ax] else []) ++
   [SetTitle ax title; SetXlabel ax x_label;
    SetYlabel ax (if y_log then y_label ++ " (log scale)" else y_label)] ++
   match legend_lst with Some l => [AxLegend ax l] | None => [] end)%list.

(** The calls of [set_heatmap_properties], in order. *)
Definition grid_events (ax : axes) : list event :=
  (SetXticks ax (map Z.of_nat (seq 0 cols))
   :: SetYticks ax (map Z.of_nat (seq 0 rows))
                (map (fun i => Z.of_nat rows - Z.of_nat i - 1) (seq 0 rows))
   :: flat_map (fun i => (if (i <? rows - 1)%nat then [Axhline ax (half_plus i)] else [])
                         ++ [Axvline ax (half_plus i)])
               (seq 0 (cols - 1)))%list.

(** A computation that returns, leaves the arrays alone and adds to the log
    only calls with the property [P]. *)
Definition adds (P : event -> Prop) {A : Type} (m : M A) : Prop :=
  forall w, exists a evs, m w = (Ok a, grow w evs) /\ Forall P evs.

(** A computation that returns [a] and adds exactly the calls [evs], from
    whatever world it starts. *)
Definition logs {A : Type} (m : M A) (a : A) (evs : list event) : Prop :=
  forall w, m w = (Ok a, grow w evs).

(** Lines 35-39: the axes [plot_1d_hist] draws on. *)
Definition hist_axes (a : hist_args) : axes :=
  match h_ax a with
  | None => NewAxes
  | Some n => FigAxes n
  end.

(** Lines 41-42: the name of the file when the chart is saved. *)
Definition hist_file (a : hist_args) : string :=
  match h_out_filename a with
  | None => h_title a
  | Some f => f
  end.

(** Line 62. *)
Definition hist_legend (entry_count : Z) (mean_str std_str : string) : list string :=
  ["Entries = " ++ int_str entry_count ++ newline ++
   "Mean Value = " ++ mean_str ++ newline ++
   "Std = " ++ std_str].

(** The calls of [plot_1d_hist] on a sample that is not empty, in order. *)
Definition hist_events (E : env) (a : hist_args) (data : list Q) (b : bins)
    (legend_lst : list string) : list event :=
  (match h_ax a with None => [Subplots 1 1] | Some _ => [] end ++
   [AxHist (hist_axes a) data b; AxGrid (hist_axes a)] ++
   style_events (hist_axes a) (h_title a) (h_x_label a) (h_y_label a)
                (h_x_lim a) (h_y_lim a) (h_log a) (Some legend_lst) ++
   match h_ax a with
   | None => [SaveFig (verify_file_extension E (h_path a ++ "/" ++ hist_file a) ".png")]
   | Some _ => []
   end)%list.

(** The same request with another [path] and [out_filename]. *)
Definition with_output (a : hist_args) (path : string) (out_filename : option string)
  : hist_args :=
  {| h_data := h_data a; h_ax := h_ax a; h_bin_num := h_bin_num a;
     h_bin_step := h_bin_step a; h_log := h_log a; h_title := h_title a;
     h_x_label := h_x_label a; h_y_label := h_y_label a; h_path := path;
     h_out_filename := out_filename; h_x_lim := h_x_lim a;
     h_y_lim := h_y_lim a |}.

(** Line 164: [fig is None or ax is None]. *)
Definition makes_figure (a : heatmap_args) : bool :=
  match m_fig a, m_ax a with
  | Some _, Some _ => false
  | _, _ => true
  end.

(** The axes [plot_heatmap] draws on. *)
Definition heat_axes (a : heatmap_args) : axes :=
  match m_fig a, m_ax a with
  | Some _, Some n => FigAxes n
  | _, _ => NewAxes
  end.

Definition heat_file (a : heatmap_args) : string :=
  match m_out_filename a with
  | None => m_title a
  | Some f => f
  end.

(** The image [plot_heatmap] draws of the array at [data] of a world. *)
Definition heat_image (a : heatmap_args) (data : loc) (w : world) : event :=
  Imshow (heat_axes a) data (mask_zeros (heap w data)) (m_v_min a) (m_v_max a)
         {| cmap_name := "jet"; cmap_under := Some "white" |}
         (if m_log a then Some LogNorm else None).

(** The calls of [plot_heatmap] after the image, in order. *)
Definition heat_tail (E : env) (a : heatmap_args) : list event :=
  (grid_events (heat_axes a) ++
   style_events (heat_axes a) (m_title a) (m_x_label a) (m_y_label a)
                None None false None ++
   (if makes_figure a
    then [SaveFig (verify_file_extension E (m_path a ++ "/" ++ heat_file a) ".png")]
    else []))%list.

(** The calls of [n] charts that each make their own figure: [n] closings;
    each chart warned or was saved; a figure was made and a histogram drawn
    for each chart saved. *)
Definition charts (n : nat) (evs : list event) : Prop :=
  count is_close evs = n /\
  (count is_warn evs + count is_savefig evs)%nat = n /\
  count is_subplots evs = count is_savefig evs /\
  count is_hist evs = count is_savefig evs.

(** The calls of [n] charts that were all skipped. *)
Definition skipped (n : nat) (evs : list event) : Prop :=
  evs = List.concat (repeat [Warn "Cannot plot empty data."; CloseAll] n).

(** The calls made for the layers from position [i] on: nothing is saved,
    no figure is made or closed, and only the panels of those layers are
    drawn on. *)
Definition panel_call (i n : nat) (e : event) : Prop :=
  is_savefig e = false /\ is_subplots e = false /\ is_close e = false /\
  forall ax, target e = Some ax ->
             exists j, (i <= j < i + n)%nat /\ ax = FigAxes (layer_axes j).

End Charts.

(** ** A concrete configuration and dataset, for the examples *)

Module Sample.
Import PyStr Digits PyFormat Formatter Binning Dataset Backend Plotting Heatmap.

Definition sample_env : env :=
  {| np_mean := fun _ => Fnum 0;
     np_std := fun _ => Fnum 0;
     verify_file_extension := fun p _ => p;
     RESULTS_DIR := "results";
     RUN_NUM := 1;
     LAYERS := [0];
     CHANNELS := [0; 1; 2; 3];
     pad_channel := fun r c => Z.of_nat (r * cols + c) |}.

Definition hit (e l c : Z) (a s : Q) : HitRecord :=
  {| event_id := e; layer_id := l; channel_id := c; amplitude := a;
     shower_energy := s |}.

(** Event 1 has three hits in layer 0, event 2 has one. *)
Definition two_events : DataFrame :=
  [hit 1 0 0 10 100; hit 1 0 1 20 100; hit 1 0 2 30 100; hit 2 0 3 5 50].

Definition empty_world : world :=
  {| heap := fun _ => []; next_loc := 0%nat; log := [] |}.

End Sample.

Module MoreSamples.
Import Backend Plotting Sample.

(** The sample configuration with other layers. *)
Definition with_layers (layers : list Z) : env :=
  {| np_mean := np_mean sample_env; np_std := np_std sample_env;
     verify_file_extension := verify_file_extension sample_env;
     RESULTS_DIR := RESULTS_DIR sample_env; RUN_NUM := RUN_NUM sample_env;
     LAYERS := layers; CHANNELS := CHANNELS sample_env;
     pad_channel := pad_channel sample_env |}.

Definition layers_upto (n : nat) : list Z := map Z.of_nat (seq 0 n).

(** A histogram request with the defaults of the signature but the axes. *)
Definition hist_on (ax : option nat) (data : list Q) : hist_args :=
  {| h_data := Some data; h_ax := ax; h_bin_num := None; h_bin_step := None;
     h_log := false; h_title := "Histogram"; h_x_label := "";
     h_y_label := "Entries"; h_path := "./"; h_out_filename := None;
     h_x_lim := None; h_y_lim := None |}.

End MoreSamples.

Import PyStr Digits PyFormat Formatter Binning Dataset Backend Plotting Heatmap Sample.

(** * Properties *)

(** ** Strings and digits *)

Arguments is_digit : simpl never.
Arguments Ascii.eqb : simpl never.
Arguments digit_char : simpl never.

Lemma contains_app c s1 s2 :
  contains c (s1 ++ s2) = contains c s1 || contains c s2.
Proof.
  induction s1 as [|a s1 IH]; simpl; [reflexivity|].
  rewrite IH. apply orb_assoc.
Qed.

Lemma after_last_app c s1 s2 :
  contains c s2 = false -> after_last c (s1 ++ String c s2) = s2.
Proof.
  intros H. induction s1 as [|a s1 IH]; simpl.
  - rewrite H, Ascii.eqb_refl. reflexivity.
  - rewrite contains_app. simpl. rewrite Ascii.eqb_refl, orb_true_r. exact IH.
Qed.

Lemma length_app s1 s2 :
  String.length (s1 ++ s2) = (String.length s1 + String.length s2)%nat.
Proof. induction s1; simpl; congruence. Qed.

Lemma all_digits_app s1 s2 :
  all_digits (s1 ++ s2) = all_digits s1 && all_digits s2.
Proof.
  induction s1 as [|a s1 IH]; simpl; [reflexivity|].
  rewrite IH. apply andb_assoc.
Qed.

Lemma digit_not c a :
  is_digit c = false -> is_digit a = true -> Ascii.eqb a c = false.
Proof.
  intros Hc Ha. destruct (Ascii.eqb a c) eqn:E; [|reflexivity].
  apply Ascii.eqb_eq in E. congruence.
Qed.

Lemma all_digits_contains c s :
  is_digit c = false -> all_digits s = true -> contains c s = false.
Proof.
  intros Hc. induction s as [|a s IH]; simpl; [reflexivity|].
  intros H. apply andb_true_iff in H as [Ha Hs].
  rewrite (digit_not c a Hc Ha), IH by assumption. reflexivity.
Qed.

Lemma is_digit_digit_char n : is_digit (digit_char n) = true.
Proof.
  unfold digit_char.
  assert (H : (Z.to_nat (n mod 10) < 10)%nat)
    by (pose proof (Z.mod_pos_bound n 10); lia).
  revert H. generalize (Z.to_nat (n mod 10)) as k. intros k H.
  do 10 (destruct k as [|k]; [reflexivity|]). lia.
Qed.

Lemma all_digits_fixed d : forall n, all_digits (fixed_digits d n) = true.
Proof.
  induction d as [|d IH]; intros n; simpl; [reflexivity|].
  rewrite all_digits_app, IH. cbn [all_digits andb].
  rewrite is_digit_digit_char. reflexivity.
Qed.

Lemma length_fixed d : forall n, String.length (fixed_digits d n) = d.
Proof.
  induction d as [|d IH]; intros n; simpl; [reflexivity|].
  rewrite length_app, IH. simpl. lia.
Qed.

Lemma all_digits_rstrip s : all_digits s = true -> all_digits (rstrip_zeros s) = true.
Proof.
  induction s as [|a s IH]; simpl; [reflexivity|].
  intros H. apply andb_true_iff in H as [Ha Hs]. specialize (IH Hs).
  destruct (rstrip_zeros s) as [|b r].
  - destruct (Ascii.eqb a "0"); simpl; [reflexivity|]. rewrite Ha. reflexivity.
  - change (is_digit a && all_digits (String b r) = true). rewrite Ha. exact IH.
Qed.

Lemma count_digits_pos f n : (0 < count_digits f n)%nat.
Proof. destruct f; simpl; [lia|]. destruct (n <? 10); lia. Qed.

Lemma num_digits_pos n : (0 < num_digits n)%nat.
Proof. apply count_digits_pos. Qed.

Lemma sign_str_no c neg : is_digit c = false -> c <> "-"%char -> contains c (sign_str neg) = false.
Proof.
  intros _ Hc. destruct neg; simpl; [|reflexivity].
  destruct (Ascii.eqb "-" c) eqn:E; [|reflexivity].
  apply Ascii.eqb_eq in E. congruence.
Qed.

(** ** Shapes of the renderings *)

(** The three shapes of [with_fraction] on digit strings. *)
Lemma with_fraction_cases ip fp :
  (fp = "" /\ with_fraction ip fp = ip) \/
  (fp <> "" /\ with_fraction ip fp = ip ++ "." ++ fp).
Proof. destruct fp; [left|right]; split; try reflexivity. discriminate. Qed.

Lemma contains_with_fraction_digits c ip fp :
  is_digit c = false -> c <> "."%char ->
  all_digits ip = true -> all_digits fp = true ->
  contains c (with_fraction ip fp) = false.
Proof.
  intros Hc Hdot Hip Hfp.
  destruct (with_fraction_cases ip fp) as [[_ ->]|[_ ->]].
  - apply all_digits_contains; assumption.
  - rewrite !contains_app. simpl.
    rewrite (all_digits_contains c ip), (all_digits_contains c fp) by assumption.
    destruct (Ascii.eqb "." c) eqn:E; [|reflexivity].
    apply Ascii.eqb_eq in E. congruence.
Qed.

Lemma fixed_digits_nonempty d n : (0 < d)%nat -> fixed_digits d n <> "".
Proof.
  intros H E. apply (f_equal String.length) in E.
  rewrite length_fixed in E. simpl in E. lia.
Qed.

Lemma with_fraction_plain d n fp :
  (0 < d)%nat -> all_digits fp = true ->
  plain_shape (with_fraction (fixed_digits d n) fp).
Proof.
  intros Hd Hfp.
  destruct (with_fraction_cases (fixed_digits d n) fp) as [[_ ->]|[Hne ->]].
  - apply plain_int; [apply all_digits_fixed | apply fixed_digits_nonempty, Hd].
  - eapply plain_frac; eauto using all_digits_fixed.
Qed.

(** [general_mag] is either in fixed notation or has an exponent. *)
Lemma general_mag_shape p m :
  plain_shape (general_mag p m) \/ contains "e" (general_mag p m) = true.
Proof.
  unfold general_mag. destruct (sig_digits p m) as [n x].
  destruct ((-4 <=? x) && (x <? Z.of_nat p)).
  - left. apply with_fraction_plain; [apply num_digits_pos|].
    apply all_digits_rstrip, all_digits_fixed.
  - right. rewrite !contains_app. simpl. rewrite orb_true_r. reflexivity.
Qed.

Lemma plain_shape_nonempty s : plain_shape s -> s <> "".
Proof.
  intros [H Hne|ip fp -> _ _ _]; [exact Hne|].
  destruct ip; discriminate.
Qed.

Lemma plain_shape_dot s :
  plain_shape s -> contains "." s = true -> after_last "." s <> "".
Proof.
  intros [H Hne|ip fp -> Hip Hfp Hne] Hdot.
  - rewrite all_digits_contains in Hdot by (reflexivity || assumption). discriminate.
  - change (ip ++ "." ++ fp) with (ip ++ String "." fp).
    rewrite after_last_app; [exact Hne|].
    apply all_digits_contains; [reflexivity | exact Hfp].
Qed.

Lemma plain_shape_nodot s :
  plain_shape s -> contains "." s = false -> all_digits s = true.
Proof.
  intros [H Hne|ip fp -> Hip Hfp Hne] Hdot; [exact H|].
  rewrite !contains_app in Hdot. simpl in Hdot.
  rewrite orb_true_r in Hdot. discriminate.
Qed.

Lemma append_assoc_s (a b c : string) : (a ++ b) ++ c = a ++ (b ++ c).
Proof. induction a; simpl; congruence. Qed.

Lemma after_last_prefix c s1 s2 :
  contains c s2 = true -> after_last c (s1 ++ s2) = after_last c s2.
Proof.
  intros H. induction s1 as [|a s1 IH]; simpl; [reflexivity|].
  rewrite contains_app, H, orb_true_r. exact IH.
Qed.

(** A rendering with an exponent comes from a finite nonzero number. *)
Lemma format_g_exponent p x :
  contains "e" (format_g p x) = true ->
  exists q, x = Fnum q /\ Qeq_bool q 0 = false.
Proof.
  destruct x as [q| |[|]|]; simpl; try discriminate.
  destruct (Qeq_bool q 0) eqn:E; [discriminate|]. eauto.
Qed.

Lemma format_g_nonzero_shape p q :
  Qeq_bool q 0 = false ->
  format_g p (Fnum q) = sign_str (is_neg q) ++ general_mag (Nat.max 1 p) (Qabs q).
Proof. intros H. unfold format_g. rewrite H. reflexivity. Qed.

Lemma format_g_nonempty p x : format_g p x <> "".
Proof.
  unfold format_g. destruct x as [q| |[|]|]; try discriminate.
  destruct (Qeq_bool q 0); [discriminate|].
  pose proof (general_mag_shape (Nat.max 1 p) (Qabs q)) as H.
  destruct (general_mag (Nat.max 1 p) (Qabs q)) as [|a r].
  - destruct H as [H|H]; [apply plain_shape_nonempty in H; congruence|discriminate].
  - destruct (sign_str (is_neg q)); discriminate.
Qed.

(** A rendering of a nonzero number without an exponent is a sign followed
    by a number in fixed notation. *)
Lemma format_g_plain x :
  is_zero x = false -> contains "e" (format_g 3 x) = false ->
  (exists q, x = Fnum q /\
     format_g 3 x = sign_str (is_neg q) ++ general_mag 3 (Qabs q) /\
     plain_shape (general_mag 3 (Qabs q))) \/
  (contains "." (format_g 3 x) = false /\ x <> Fnegzero /\ forall q, x <> Fnum q).
Proof.
  intros Hz He.
  assert (Hother : forall y : pyfloat,
             contains "." (format_g 3 y) = false -> y <> Fnegzero ->
             (forall q, y <> Fnum q) ->
             contains "." (format_g 3 y) = false /\ y <> Fnegzero /\
             forall q, y <> Fnum q) by (intros; repeat split; assumption).
  destruct x as [q| |[|]|].
  - left. exists q. simpl in Hz.
    rewrite (format_g_nonzero_shape 3 q Hz) in *.
    change (Nat.max 1 3) with 3%nat in *.
    rewrite contains_app in He. apply orb_false_iff in He as [_ He].
    split; [reflexivity|]. split; [reflexivity|].
    destruct (general_mag_shape 3 (Qabs q)) as [H|H]; [exact H|congruence].
  - discriminate Hz.
  - right. apply Hother; [reflexivity|discriminate|intros q; discriminate].
  - right. apply Hother; [reflexivity|discriminate|intros q; discriminate].
  - right. apply Hother; [reflexivity|discriminate|intros q; discriminate].
Qed.

(** [format_latex] never takes the logarithm of a zero: it always returns. *)
Lemma format_latex_total x sd : exists s, format_latex x sd = Ok s.
Proof.
  unfold format_latex.
  destruct (contains "e" (format_g 3 x)) eqn:He; [|eauto].
  apply format_g_exponent in He as (q & -> & Hq).
  simpl. rewrite Hq. simpl. eauto.
Qed.

Lemma has_decimals_format_f d value :
  (0 < d)%nat -> is_finite value = true -> has_decimals d (format_f d value).
Proof.
  intros Hd Hfin.
  assert (H : forall sg m, has_decimals d (sg ++ fixed_mag d m) \/ contains "." sg = true).
  { intros sg m. destruct (contains "." sg) eqn:Hsg; [right; reflexivity|left].
    unfold fixed_mag.
    set (n := round_half_even _). set (ip := (n / pow10 d)%Z).
    destruct (with_fraction_cases (fixed_digits (num_digits ip) ip) (fixed_digits d n))
      as [[E _]|[_ ->]].
    - exfalso. revert E. apply fixed_digits_nonempty, Hd.
    - exists (sg ++ fixed_digits (num_digits ip) ip), (fixed_digits d n).
      repeat split.
      + rewrite append_assoc_s. reflexivity.
      + rewrite contains_app, Hsg. simpl.
        apply all_digits_contains; [reflexivity | apply all_digits_fixed].
      + apply all_digits_fixed.
      + apply length_fixed. }
  destruct value as [q| |[|]|]; simpl in Hfin; try discriminate; simpl.
  - destruct (H (sign_str (is_neg q)) (Qabs q)) as [H'|H']; [exact H'|].
    destruct (is_neg q); discriminate.
  - destruct (H "-" 0%Q) as [H'|H']; [exact H'|discriminate].
Qed.

(** ** The formatter *)



(** C2, as amended: when the 3-significant-figure rendering of a nonzero
    uncertainty has no exponent and has a decimal point followed by [d]
    characters, then [d > 0], the formatter returns that rendering as the
    uncertainty string and the value in fixed-point notation with precision
    [d]; for a finite value that string has exactly [d] digits after its
    decimal point. *)
Theorem decimal_uncertainty_precision (value u : pyfloat) (d : nat) :
  is_zero u = false ->
  contains "e" (format_g 3 u) = false ->
  contains "." (format_g 3 u) = true ->
  String.length (after_last "." (format_g 3 u)) = d ->
  (0 < d)%nat /\
  set_significant_digits_str value u = Ok (format_f d value, format_g 3 u) /\
  (is_finite value = true -> has_decimals d (format_f d value)).
Proof.
  intros Hz He Hdot Hd.
  assert (Hpos : (0 < d)%nat).
  { destruct (format_g_plain u Hz He) as [(q & -> & Hq & Hshape)|[Hno _]];
      [|congruence].
    rewrite Hq in Hdot, Hd. rewrite contains_app in Hdot.
    rewrite sign_str_no in Hdot by (reflexivity || discriminate). simpl in Hdot.
    rewrite after_last_prefix in Hd by exact Hdot.
    pose proof (plain_shape_dot _ Hshape Hdot) as Hne.
    destruct (after_last "." (general_mag 3 (Qabs q))); [congruence|].
    simpl in Hd. lia. }
  split; [exact Hpos|]. split.
  - unfold set_significant_digits_str. rewrite Hz, He, Hdot, Hd.
    apply Nat.ltb_lt in Hpos. rewrite Hpos. simpl.
    destruct d; [discriminate|]. reflexivity.
  - intros Hfin. apply has_decimals_format_f; assumption.
Qed.

(** The claim's own example, on the doubles nearest to 12.345 and 0.12. *)
Example formatter_example_decimal :
  set_significant_digits_str (Fnum d12_345) (Fnum d0_12) = Ok ("12.35", "0.12").
Proof. vm_compute. reflexivity. Qed.

Lemma decimal_uncertainty_precision_witness :
  (0 < 2)%nat /\
  set_significant_digits_str (Fnum d12_345) (Fnum d0_12)
    = Ok (format_f 2 (Fnum d12_345), format_g 3 (Fnum d0_12)) /\
  (is_finite (Fnum d12_345) = true -> has_decimals 2 (format_f 2 (Fnum d12_345))).
Proof.
  apply (decimal_uncertainty_precision (Fnum d12_345) (Fnum d0_12) 2);
    vm_compute; reflexivity.
Defined.

(** C2 as stated fails: for value 12.345 and uncertainty 0.12 the
    uncertainty string is not "0.120". *)
Lemma decimal_uncertainty_counterexample :
  set_significant_digits_str (Fnum d12_345) (Fnum d0_12) <> Ok ("12.35", "0.120").
Proof. rewrite formatter_example_decimal. intros H. inversion H. Qed.

(** C3, as amended: when the 3-significant-figure rendering of a nonzero
    uncertainty has neither an exponent nor a decimal point, the formatter
    returns it as the uncertainty string and renders the value in Python's
    general format with as many significant figures as that rendering has
    characters; for a positive uncertainty these characters are all digits. *)
Theorem integer_uncertainty_precision (value u : pyfloat) :
  is_zero u = false ->
  contains "e" (format_g 3 u) = false ->
  contains "." (format_g 3 u) = false ->
  set_significant_digits_str value u
    = Ok (format_g (String.length (format_g 3 u)) value, format_g 3 u) /\
  (forall q, u = Fnum q -> (0 < q)%Q -> all_digits (format_g 3 u) = true).
Proof.
  intros Hz He Hdot. split.
  - unfold set_significant_digits_str. rewrite Hz, He, Hdot. simpl.
    pose proof (format_g_nonempty 3 u) as Hne.
    destruct (format_g 3 u) eqn:E; [congruence|]. reflexivity.
  - intros q -> Hq.
    destruct (format_g_plain (Fnum q) Hz He) as [(q' & Eq & Hfmt & Hshape)|(_ & _ & H)];
      [|exfalso; exact (H q eq_refl)].
    injection Eq as <-.
    assert (Hneg : is_neg q = false).
    { unfold is_neg. apply negb_false_iff, Qle_bool_iff, Qlt_le_weak, Hq. }
    rewrite Hfmt, Hneg in *. simpl in *.
    apply plain_shape_nodot; assumption.
Qed.

Example formatter_example_integer :
  set_significant_digits_str (Fnum 12345) (Fnum 456) = Ok ("1.23e+04", "456").
Proof. vm_compute. reflexivity. Qed.

Lemma integer_uncertainty_precision_witness :
  set_significant_digits_str (Fnum 12345) (Fnum 456)
    = Ok (format_g (String.length (format_g 3 (Fnum 456))) (Fnum 12345),
          format_g 3 (Fnum 456)) /\
  (forall q, Fnum 456 = Fnum q -> (0 < q)%Q -> all_digits (format_g 3 (Fnum 456)) = true).
Proof.
  apply (integer_uncertainty_precision (Fnum 12345) (Fnum 456));
    vm_compute; reflexivity.
Defined.

(** C3 as stated fails: for value 12345 and uncertainty 456 the value
    string is "1.23e+04", not "12300". *)
Lemma integer_uncertainty_counterexample :
  ~ exists u, set_significant_digits_str (Fnum 12345) (Fnum 456) = Ok ("12300", u).
Proof.
  rewrite formatter_example_integer. intros [u H]. inversion H.
Qed.

(** ** Bin edges *)

Section BinEdges.
Local Open Scope Q_scope.











End BinEdges.



(** The edges of that sample, computed. *)
Example fixed_step_edges_example :
  hist_bins None (Some (1 # 2)) [3 # 2; -1 # 3; 2%Q]
  = Ok (BinsEdges [-2 # 6; 1 # 6; 4 # 6; 7 # 6; 10 # 6; 13 # 6]).
Proof. vm_compute. reflexivity. Qed.

(** C10: a bin count of 0 is falsy and is treated as no bin count: the step
    policy is used when a nonzero step is given and automatic binning
    otherwise; a step of 0 is likewise treated as no step.  Nothing is
    rejected: the histogram is drawn as if the argument had been left out. *)
Theorem zero_bin_count_unspecified :
  (forall bin_step data,
      hist_bins (Some 0) bin_step data = hist_bins None bin_step data) /\
  (forall bin_num data,
      hist_bins bin_num (Some 0%Q) data = hist_bins bin_num None data) /\
  (forall data w,
      hist_bins (Some 0) (Some w) data =
      if Qeq_bool w 0 then Ok BinsAuto
      else lo <- np_min data ;; hi <- np_max data ;;
           e <- get_equal_bins (py_min lo 0) hi w ;; Ok (BinsEdges e)) /\
  (forall data, hist_bins (Some 0) None data = Ok BinsAuto) /\
  (forall data, hist_bins (Some 0) (Some 0%Q) data = Ok BinsAuto) /\
  (forall E a bin_step w,
      plot_1d_hist E (with_bins a (Some 0) bin_step) w =
      plot_1d_hist E (with_bins a None bin_step) w) /\
  (forall E a bin_num w,
      plot_1d_hist E (with_bins a bin_num (Some 0%Q)) w =
      plot_1d_hist E (with_bins a bin_num None) w).
Proof.
  assert (H1 : forall bin_step data,
             hist_bins (Some 0) bin_step data = hist_bins None bin_step data)
    by reflexivity.
  assert (H2 : forall bin_num data,
             hist_bins bin_num (Some 0%Q) data = hist_bins bin_num None data).
  { intros [n|] data; unfold hist_bins; [destruct (truthy_Z (Some n))|]; reflexivity. }
  split; [exact H1|]. split; [exact H2|]. split.
  { intros data w. unfold hist_bins, step_bins, truthy_Q. cbn [truthy_Z Z.eqb negb].
    destruct (Qeq_bool w 0); reflexivity. }
  split; [reflexivity|]. split; [reflexivity|]. split.
  { intros E a bin_step w. unfold plot_1d_hist.
    destruct (h_data a) as [[|x t]|] eqn:Hd; cbn [with_bins h_data]; rewrite Hd;
      reflexivity. }
  intros E a bin_num w. unfold plot_1d_hist.
  destruct (h_data a) as [[|x t]|] eqn:Hd; cbn [with_bins h_data]; rewrite Hd;
    reflexivity.
Qed.

(** ** Empty samples *)

(** C5: for a null or empty sample the histogram operation raises nothing:
    it returns after one warning, with no other call made and the arrays
    untouched, so whatever follows in a batch runs from there. *)
Theorem empty_sample_skipped (E : env) (a : hist_args) (w : world) :
  null_or_empty (h_data a) = true ->
  plot_1d_hist E a w = (Ok tt, record (Warn "Cannot plot empty data.") w) /\
  (forall (B : Type) (k : unit -> M B),
      bindM (plot_1d_hist E a) k w = k tt (record (Warn "Cannot plot empty data.") w)) /\
  (forall rest,
      for_each (fun _ b => plot_1d_hist E b) (a :: rest) tt w =
      for_each (fun _ b => plot_1d_hist E b) rest tt
               (record (Warn "Cannot plot empty data.") w)).
Proof.
  intros Hempty.
  assert (H : plot_1d_hist E a w = (Ok tt, record (Warn "Cannot plot empty data.") w)).
  { unfold plot_1d_hist. destruct (h_data a) as [[|x t]|]; try reflexivity.
    discriminate Hempty. }
  split; [exact H|]. split.
  - intros B k. unfold bindM. rewrite H. reflexivity.
  - intros rest. cbn [for_each]. unfold bindM at 1. rewrite H. reflexivity.
Qed.

Lemma empty_sample_skipped_witness :
  plot_1d_hist sample_env (hist_defaults (Some [])) empty_world
    = (Ok tt, record (Warn "Cannot plot empty data.") empty_world) /\
  (forall (B : Type) (k : unit -> M B),
      bindM (plot_1d_hist sample_env (hist_defaults (Some []))) k empty_world
      = k tt (record (Warn "Cannot plot empty data.") empty_world)) /\
  (forall rest,
      for_each (fun _ b => plot_1d_hist sample_env b)
               (hist_defaults (Some []) :: rest) tt empty_world =
      for_each (fun _ b => plot_1d_hist sample_env b) rest tt
               (record (Warn "Cannot plot empty data.") empty_world)).
Proof.
  apply (empty_sample_skipped sample_env (hist_defaults (Some [])) empty_world).
  reflexivity.
Defined.

(** In the channel loop a channel without hits costs a warning and the
    loop goes on with the next channel. *)
Lemma plot_channels_skips_empty E df layer c rest w :
  filter_df df layer (Some c) = [] ->
  plot_channels E df layer (c :: rest) w =
  plot_channels E df layer rest
    (record CloseAll (record (Warn "Cannot plot empty data.") w)).
Proof.
  intros Hnone. unfold plot_channels. cbn [for_each].
  unfold bindM at 1. unfold plot_channel_energy_dist. rewrite Hnone.
  reflexivity.
Qed.

(** Every histogram of a batch returns: the formatter never raises, and the
    bin edges of a non-empty sample are always computed. *)
Lemma set_significant_digits_str_total value u :
  exists p, set_significant_digits_str value u = Ok p.
Proof.
  unfold set_significant_digits_str.
  destruct (format_latex_total value 3) as [v Hv].
  destruct (format_latex_total u 3) as [s Hs].
  destruct (is_zero u); [rewrite Hv; simpl; eauto|].
  destruct (contains "e" (format_g 3 u)); [rewrite Hv, Hs; simpl; eauto|].
  match goal with |- context [if ?c then _ else _] => destruct c end; simpl; eauto.
Qed.

(** ** Deduplication *)

Section DropDuplicates.
Context {A : Type} (eqb : A -> A -> bool).

Lemma drop_duplicates_subset l x : In x (drop_duplicates eqb l) -> In x l.
Proof.
  revert x. induction l as [|a t IH]; intros x; simpl; [auto|].
  intros [->|H]; [auto|]. apply filter_In in H as [H _]. auto.
Qed.

Hypothesis eqb_eq : forall a b, eqb a b = true <-> a = b.

Lemma drop_duplicates_In l x : In x (drop_duplicates eqb l) <-> In x l.
Proof.
  split; [apply drop_duplicates_subset|].
  induction l as [|a t IH]; simpl; [auto|].
  intros [->|H]; [auto|].
  destruct (eqb a x) eqn:E.
  - left. apply eqb_eq, E.
  - right. apply filter_In. rewrite E. auto.
Qed.

Lemma drop_duplicates_NoDup l : NoDup (drop_duplicates eqb l).
Proof.
  induction l as [|a t IH]; simpl; constructor.
  - intros H. apply filter_In in H as [_ H].
    assert (E : eqb a a = true) by (apply eqb_eq; reflexivity).
    rewrite E in H. discriminate.
  - apply NoDup_filter, IH.
Qed.

End DropDuplicates.


Lemma filter_ids x (l : list (Z * Q)) :
  (forall y, In y l -> fst x = fst y -> (snd x == snd y)%Q) ->
  map fst (filter (fun y => negb (pairZQ_eqb x y)) l)
  = filter (fun e => negb (fst x =? e)) (map fst l).
Proof.
  induction l as [|y l IH]; intros H; simpl; [reflexivity|].
  assert (E : pairZQ_eqb x y = (fst x =? fst y)).
  { unfold pairZQ_eqb. destruct (Z.eqb_spec (fst x) (fst y)) as [Heq|]; [|reflexivity].
    simpl. apply Qeq_bool_iff, H; [left; reflexivity | exact Heq]. }
  rewrite E, <- IH by (intros; apply H; [right|]; assumption).
  destruct (fst x =? fst y); reflexivity.
Qed.

(** With one value per id, deduplicating the rows keeps one row per id. *)
Lemma drop_duplicates_ids rows :
  determined rows ->
  map fst (drop_duplicates pairZQ_eqb rows) = drop_duplicates Z.eqb (map fst rows).
Proof.
  induction rows as [|x t IH]; intros Hdet; simpl; [reflexivity|].
  f_equal. rewrite <- IH.
  - apply filter_ids. intros y Hy. apply Hdet; [left; reflexivity|].
    right. eapply drop_duplicates_subset, Hy.
  - intros r1 r2 H1 H2. apply Hdet; right; assumption.
Qed.

Lemma energy_per_event_determined df :
  energy_per_event df ->
  determined (map (fun r => (event_id r, shower_energy r)) df).
Proof.
  intros H r1 r2 H1 H2.
  apply in_map_iff in H1 as (a & <- & Ha). apply in_map_iff in H2 as (b & <- & Hb).
  simpl. apply H; assumption.
Qed.

(** ** Histograms that are drawn *)

Lemma step_bins_edges (x : Q) (t : list Q) (w : Q) :
  (0 < w)%Q -> exists edges, hist_bins None (Some w) (x :: t) = Ok (BinsEdges edges).
Proof.
  intros Hw. unfold hist_bins, step_bins, truthy_Q, get_equal_bins, np_arange.
  destruct (Qeq_bool w 0) eqn:E; [apply Qeq_bool_iff in E; lra|].
  cbn [negb np_min np_max bind]. eauto.
Qed.

Lemma app_one {X : Type} (l : list X) (a : X) (r : list X) :
  ((l ++ [a]) ++ r = l ++ a :: r)%list.
Proof. rewrite <- app_assoc. reflexivity. Qed.

(** The calls made for the shower-energy chart of a dataset with rows. *)
Lemma plot_shower_energy_dist_log E df w :
  df <> [] ->
  exists edges legend full_path,
    plot_shower_energy_dist E df w =
    (Ok tt,
     {| heap := heap w; next_loc := next_loc w;
        log := log w ++
               [Subplots 1 1;
                AxHist NewAxes (shower_energies df) (BinsEdges edges);
                AxGrid NewAxes;
                SetTitle NewAxes "Total energy distribution (showers)";
                SetXlabel NewAxes "ADC counts";
                SetYlabel NewAxes "Entries";
                AxLegend NewAxes legend;
                SaveFig full_path;
                CloseAll] |}).
Proof.
  intros Hne. unfold plot_shower_energy_dist, plot_1d_hist.
  cbn [h_data h_ax h_bin_num h_bin_step h_log h_title h_x_label h_y_label h_path
       h_out_filename h_x_lim h_y_lim].
  destruct (shower_energies df) as [|x t] eqn:Hs.
  { destruct df; [congruence|discriminate Hs]. }
  destruct (step_bins_edges x t 100 ltac:(reflexivity)) as [edges Hb].
  destruct (set_significant_digits_str_total (np_mean E (x :: t)) (np_std E (x :: t)))
    as [[ms ss] Hstr].
  do 3 eexists.
  unfold bindM, lift, emit, ret, style_fig, when, save_fig, bindM, emit, ret, record, grow.
  cbn [log heap next_loc]. rewrite Hb, Hstr. cbn [log heap next_loc].
  rewrite !app_one. reflexivity.
Qed.

(** ** Shower energies *)

(** C7: when the shower energy is constant within an event, the sample of
    the shower-energy histogram has exactly one entry per distinct event id,
    however many hits the event has: the rows kept are those of the distinct
    event ids, each once and with an energy of that event, and it is this
    sample that the histogram receives. *)
Theorem shower_sample_one_per_event (df : DataFrame) :
  energy_per_event df ->
  map fst (showers df) = drop_duplicates Z.eqb (map event_id df) /\
  NoDup (map fst (showers df)) /\
  (forall e, In e (map fst (showers df)) <-> In e (map event_id df)) /\
  (forall e s, In (e, s) (showers df) ->
               exists r, In r df /\ event_id r = e /\ shower_energy r = s) /\
  Z.of_nat (List.length (shower_energies df)) = num_events df /\
  (forall E w, df <> [] ->
     exists b, In (AxHist NewAxes (shower_energies df) b)
                  (log (snd (plot_shower_energy_dist E df w)))).
Proof.
  intros Hinv.
  assert (Hids : map fst (showers df) = drop_duplicates Z.eqb (map event_id df)).
  { unfold showers, unique_df.
    rewrite drop_duplicates_ids by (apply energy_per_event_determined, Hinv).
    rewrite map_map. reflexivity. }
  split; [exact Hids|]. split.
  { rewrite Hids. apply drop_duplicates_NoDup, Z.eqb_eq. }
  split.
  { intros e. rewrite Hids. apply drop_duplicates_In, Z.eqb_eq. }
  split.
  { intros e s H. apply drop_duplicates_subset in H.
    apply in_map_iff in H as (r & Hr & Hin). injection Hr as <- <-. eauto. }
  split.
  { unfold shower_energies, num_events. rewrite length_map, <- Hids, length_map.
    reflexivity. }
  intros E w Hne.
  destruct (plot_shower_energy_dist_log E df w Hne) as (edges & legend & fp & ->).
  exists (BinsEdges edges). cbn [snd log].
  apply in_or_app. right. right. left. reflexivity.
Qed.

(** Event 1 has three hits and energy 100, event 2 one hit and energy 50. *)
Example shower_sample_example : shower_energies two_events = [100%Q; 50%Q].
Proof. reflexivity. Qed.

Lemma two_events_invariant : energy_per_event two_events.
Proof.
  intros r1 r2 H1 H2. simpl in H1, H2.
  repeat (destruct H1 as [<-|H1]); try contradiction;
    repeat (destruct H2 as [<-|H2]); try contradiction;
    simpl; intros He; try discriminate He; reflexivity.
Qed.

Lemma shower_sample_one_per_event_witness :
  map fst (showers two_events) = drop_duplicates Z.eqb (map event_id two_events) /\
  NoDup (map fst (showers two_events)) /\
  (forall e, In e (map fst (showers two_events)) <-> In e (map event_id two_events)) /\
  (forall e s, In (e, s) (showers two_events) ->
               exists r, In r two_events /\ event_id r = e /\ shower_energy r = s) /\
  Z.of_nat (List.length (shower_energies two_events)) = num_events two_events /\
  (forall E w, two_events <> [] ->
     exists b, In (AxHist NewAxes (shower_energies two_events) b)
                  (log (snd (plot_shower_energy_dist E two_events w)))).
Proof.
  apply (shower_sample_one_per_event two_events). exact two_events_invariant.
Defined.

(** ** Channel frequencies *)







(** With two events, a channel hit in one of them has frequency 1/2 and a
    channel without hits has frequency 0. *)
Example channel_frequency_example :
  cell (channel_frequency sample_env two_events 0) 0 0 = Some (Fnum (1 # 2)) /\
  cell (channel_frequency sample_env two_events 0) 0 3 = Some (Fnum (1 # 2)) /\
  cell (channel_frequency sample_env two_events 0) 0 4 = Some (Fnum (0 # 2)).
Proof. repeat split; reflexivity. Qed.


(** ** Heat maps *)



(** *** Calls that only add to the log *)

Lemma grow_nil w : grow w [] = w.
Proof. destruct w. unfold grow. cbn. rewrite app_nil_r. reflexivity. Qed.

Lemma grow_grow w e1 e2 : grow (grow w e1) e2 = grow w (e1 ++ e2).
Proof. unfold grow. cbn. rewrite app_assoc. reflexivity. Qed.









Lemma bindM_run {A B} (m : M A) (k : A -> M B) w a w' :
  m w = (Ok a, w') -> bindM m k w = k a w'.
Proof. intros H. unfold bindM. rewrite H. reflexivity. Qed.


(** *** The images of the frequency chart *)








(** A grid with a zero, a negative zero and two populated cells. *)
Example mask_zeros_example :
  mask_zeros [[Fnum 0; Fnum (1 # 2)]; [Fnegzero; Fnum 3]]
  = [[Fnum (-1); Fnum (1 # 2)]; [Fnum (-1); Fnum 3]].
Proof. reflexivity. Qed.


(** The caller's array before and after a heat map drawn with the defaults. *)
Example heatmap_in_place_example :
  let w := {| heap := fun _ => [[Fnum 0; Fnum 1]]; next_loc := 1%nat; log := [] |} in
  heap (snd (plot_heatmap sample_env 0%nat heatmap_defaults w)) 0%nat
  = [[Fnum (-1); Fnum 1]].
Proof. reflexivity. Qed.

(** * Further properties *)

Import Charts MoreSamples.

(** ** The formatter: shapes of the results *)








(** ** The decimal exponent *)

Section Log10.
Local Open Scope Q_scope.





End Log10.

Section Mantissa.
Local Open Scope Q_scope.





End Mantissa.




Example format_latex_example_large :
  format_latex (Fnum 12345) 3 = Ok "1.23×10$^{4}$".
Proof. reflexivity. Qed.

(** The mantissa is below 10, its two-decimal rendering need not be. *)
Example format_latex_example_rounded_up :
  format_latex (Fnum (9996 # 10)) 3 = Ok "10.00×10$^{2}$".
Proof. reflexivity. Qed.


(** ** The number of edges *)

Section EdgeCount.
Local Open Scope Q_scope.







End EdgeCount.



Example equal_bins_example :
  get_equal_bins 0 (7 # 2) 1 = Ok [0 + 0 * 1; 0 + 1 * 1; 0 + 2 * 1; 0 + 3 * 1; 0 + 4 * 1]%Q.
Proof. reflexivity. Qed.



Example negative_step_example :
  hist_bins None (Some (- (1))%Q) [1; 3]%Q = Ok (BinsEdges []) /\
  hist_bins None (Some (- (5))%Q) [1; 3]%Q = Ok (BinsEdges [0 + 0 * - (5)]%Q).
Proof. split; reflexivity. Qed.

(** ** Computations with a known list of calls *)

Lemma logs_ret {A} (a : A) : logs (ret a) a [].
Proof. intros w. rewrite grow_nil. reflexivity. Qed.

Lemma logs_emit e : logs (emit e) tt [e].
Proof. intros w. reflexivity. Qed.

Lemma logs_lift {A} (a : A) : logs (lift (Ok a)) a [].
Proof. intros w. rewrite grow_nil. reflexivity. Qed.

Lemma logs_bind {A B} (m : M A) (k : A -> M B) a b e1 e2 :
  logs m a e1 -> logs (k a) b e2 -> logs (bindM m k) b (e1 ++ e2).
Proof.
  intros Hm Hk w. unfold bindM. rewrite Hm, Hk, grow_grow. reflexivity.
Qed.

Lemma logs_eq {A} (m : M A) a e e' : logs m a e -> e = e' -> logs m a e'.
Proof. intros H <-. exact H. Qed.

Lemma logs_save_fig E p f :
  logs (save_fig E p f) tt [SaveFig (verify_file_extension E (p ++ "/" ++ f) ".png")].
Proof. intros w. reflexivity. Qed.

Ltac logs_step :=
  first [ apply logs_ret | apply logs_emit | apply logs_lift | apply logs_save_fig
        | eapply logs_bind ].

Lemma logs_style_fig ax t x y xl yl lg leg :
  logs (style_fig ax t x y xl yl lg leg) tt (style_events ax t x y xl yl lg leg).
Proof.
  unfold style_fig, style_events, when.
  destruct xl as [[? ?]|], yl as [[? ?]|], lg, leg;
    (eapply logs_eq; [repeat logs_step|reflexivity]).
Qed.

Lemma logs_for_each_unit {A} (body : unit -> A -> M unit) (f : A -> list event) l :
  (forall a, logs (body tt a) tt (f a)) ->
  logs (for_each body l tt) tt (flat_map f l).
Proof.
  intros Hb. induction l as [|a l IH]; cbn [for_each flat_map].
  - apply logs_ret.
  - eapply logs_bind; [apply Hb|exact IH].
Qed.

Lemma logs_set_heatmap_properties ax :
  logs (set_heatmap_properties ax) tt (grid_events ax).
Proof.
  unfold set_heatmap_properties, grid_events.
  eapply logs_eq.
  - eapply logs_bind; [apply logs_emit|].
    eapply logs_bind; [apply logs_emit|].
    apply (logs_for_each_unit _
             (fun i => (if (i <? rows - 1)%nat then [Axhline ax (half_plus i)] else [])
                       ++ [Axvline ax (half_plus i)])%list).
    intros i. eapply logs_bind; [|apply logs_emit].
    unfold when. destruct (i <? rows - 1)%nat; [apply logs_emit|apply logs_ret].
  - reflexivity.
Qed.

(** ** Counting calls *)

Lemma count_app p l1 l2 : count p (l1 ++ l2) = (count p l1 + count p l2)%nat.
Proof. unfold count. rewrite filter_app, List.length_app. reflexivity. Qed.

Lemma count_cons p e l : count p (e :: l) = ((if p e then 1 else 0) + count p l)%nat.
Proof. unfold count. cbn [filter]. destruct (p e); reflexivity. Qed.

Lemma count_nil p : count p [] = 0%nat.
Proof. reflexivity. Qed.

Lemma count_none p l : (forall e, In e l -> p e = false) -> count p l = 0%nat.
Proof.
  intros H. induction l as [|e l IH]; [reflexivity|].
  rewrite count_cons, (H e (or_introl eq_refl)), IH; [reflexivity|].
  intros e' He'. apply H. right. exact He'.
Qed.

(** [style_fig] only styles its axes. *)
Lemma style_events_kind ax t x y xl yl lg leg e :
  In e (style_events ax t x y xl yl lg leg) ->
  target e = Some ax /\ is_warn e = false /\ is_hist e = false /\
  is_subplots e = false /\ is_savefig e = false /\ is_close e = false /\
  is_image e = false.
Proof.
  unfold style_events. rewrite !in_app_iff.
  destruct xl as [[? ?]|], yl as [[? ?]|], lg, leg; cbn [In];
    intuition (subst; cbn; auto).
Qed.

Lemma style_events_count p ax t x y xl yl lg leg :
  (forall e, target e = Some ax -> is_hist e = false -> is_image e = false -> p e = false) ->
  count p (style_events ax t x y xl yl lg leg) = 0%nat.
Proof.
  intros Hp. apply count_none. intros e He.
  apply style_events_kind in He as (H1 & _ & H2 & _ & _ & _ & H3). auto.
Qed.

(** ** One histogram *)

(** For a sample that is not empty the bins are always computed. *)
Lemma hist_bins_total bin_num bin_step x t :
  exists b, hist_bins bin_num bin_step (x :: t) = Ok b.
Proof.
  assert (H : exists b, step_bins bin_step (x :: t) = Ok b).
  { unfold step_bins. destruct bin_step as [w|]; [|eauto].
    unfold truthy_Q. destruct (Qeq_bool w 0) eqn:E; cbn [negb]; [eauto|].
    cbn [np_min np_max bind]. unfold get_equal_bins, np_arange. rewrite E.
    cbn [bind]. eauto. }
  unfold hist_bins. destruct bin_num as [n|]; [|exact H].
  destruct (truthy_Z (Some n)); [eauto|exact H].
Qed.

Lemma plot_1d_hist_empty E a :
  null_or_empty (h_data a) = true ->
  logs (plot_1d_hist E a) tt [Warn "Cannot plot empty data."].
Proof.
  intros H w. unfold plot_1d_hist.
  destruct (h_data a) as [[|x t]|]; try discriminate; reflexivity.
Qed.

Lemma plot_1d_hist_nonempty E a x t :
  h_data a = Some (x :: t) ->
  exists b mean_str std_str,
    hist_bins (h_bin_num a) (h_bin_step a) (x :: t) = Ok b /\
    set_significant_digits_str (np_mean E (x :: t)) (np_std E (x :: t))
    = Ok (mean_str, std_str) /\
    logs (plot_1d_hist E a) tt
         (hist_events E a (x :: t) b
            (hist_legend (Z.of_nat (List.length (x :: t))) mean_str std_str)).
Proof.
  intros Hd.
  destruct (hist_bins_total (h_bin_num a) (h_bin_step a) x t) as [b Hb].
  destruct (set_significant_digits_str_total (np_mean E (x :: t)) (np_std E (x :: t)))
    as [[ms ss] Hs].
  exists b, ms, ss. split; [exact Hb|]. split; [exact Hs|].
  unfold plot_1d_hist, hist_events, hist_axes, hist_file. rewrite Hd, Hb, Hs.
  destruct (h_ax a) as [n|].
  - eapply logs_eq.
    + eapply logs_bind; [apply logs_ret|]. cbv beta iota.
      eapply logs_bind; [apply logs_lift|].
      eapply logs_bind; [apply logs_emit|].
      eapply logs_bind; [apply logs_emit|].
      eapply logs_bind; [apply logs_lift|]. cbv beta iota.
      eapply logs_bind; [apply logs_style_fig|]. apply logs_ret.
    + cbn [app]. rewrite !app_nil_r. reflexivity.
  - eapply logs_eq.
    + eapply logs_bind; [eapply logs_bind; [apply logs_emit|apply logs_ret]|].
      cbv beta iota.
      eapply logs_bind; [apply logs_lift|].
      eapply logs_bind; [apply logs_emit|].
      eapply logs_bind; [apply logs_emit|].
      eapply logs_bind; [apply logs_lift|]. cbv beta iota.
      eapply logs_bind; [apply logs_style_fig|]. apply logs_save_fig.
    + reflexivity.
Qed.

Ltac count_events :=
  repeat first [rewrite count_app | rewrite count_cons | rewrite count_nil];
  rewrite ?style_events_count by (intros [] ? ? ?; cbn in *; congruence).

Lemma hist_events_counts E a data b leg :
  count is_warn (hist_events E a data b leg) = 0%nat /\
  count is_hist (hist_events E a data b leg) = 1%nat /\
  count is_subplots (hist_events E a data b leg)
  = match h_ax a with None => 1 | Some _ => 0 end%nat /\
  count is_savefig (hist_events E a data b leg)
  = match h_ax a with None => 1 | Some _ => 0 end%nat /\
  count is_close (hist_events E a data b leg) = 0%nat.
Proof.
  unfold hist_events.
  repeat split; count_events; destruct (h_ax a); reflexivity.
Qed.

Lemma hist_events_target E a data b leg e ax :
  In e (hist_events E a data b leg) -> target e = Some ax -> ax = hist_axes a.
Proof.
  unfold hist_events. rewrite !in_app_iff. cbn [In].
  intros [H|[[H|[H|[]]]|[H|H]]] Ht.
  - destruct (h_ax a); [destruct H|]. destruct H as [<-|[]]. discriminate.
  - subst e. cbn in Ht. congruence.
  - subst e. cbn in Ht. congruence.
  - apply style_events_kind in H as [H _]. congruence.
  - destruct (h_ax a); [destruct H|]. destruct H as [<-|[]]. discriminate.
Qed.


(** X7: [plot_layer_energy_dist] always draws on the axes it is given, so
    it never makes a figure and never saves one: the [path] it receives has
    no effect at all, and no file named [Layer_<n>_energy_distribution.png]
    is ever written. *)
Theorem layer_chart_never_saved (E : env) (df : DataFrame) (layer_num : Z)
    (path : string) (ax : nat) (w : world) :
  (exists evs,
      plot_layer_energy_dist E df layer_num path ax w = (Ok tt, grow w evs) /\
      count is_savefig evs = 0%nat /\ count is_subplots evs = 0%nat /\
      count is_close evs = 0%nat /\
      (forall e ax', In e evs -> target e = Some ax' -> ax' = FigAxes ax)) /\
  (forall path',
      plot_layer_energy_dist E df layer_num path' ax w
      = plot_layer_energy_dist E df layer_num path ax w).
Proof.
  split.
  - unfold plot_layer_energy_dist.
    match goal with |- context [plot_1d_hist E ?r] => set (a := r) end.
    destruct (null_or_empty (h_data a)) eqn:Hn.
    + exists [Warn "Cannot plot empty data."].
      split; [apply plot_1d_hist_empty, Hn|].
      repeat split; try reflexivity.
      intros e ax' [<-|[]]. discriminate.
    + destruct (h_data a) as [[|x t]|] eqn:Hd; try discriminate.
      destruct (plot_1d_hist_nonempty E a x t Hd) as (b & ms & ss & _ & _ & Hrun).
      eexists. split; [apply Hrun|].
      destruct (hist_events_counts E a (x :: t) b
                  (hist_legend (Z.of_nat (List.length (x :: t))) ms ss))
        as (H1 & H2 & H3 & H4 & H5).
      repeat split; try assumption.
      intros e ax'. apply hist_events_target.
  - intros path'. unfold plot_layer_energy_dist, plot_1d_hist. cbn [h_data h_ax].
    destruct (get_layer_energies df layer_num); reflexivity.
Qed.



Example hist_on_new_figure_example :
  log (snd (plot_1d_hist sample_env (hist_on None [1%Q; 2%Q]) empty_world))
  = [Subplots 1 1; AxHist NewAxes [1%Q; 2%Q] BinsAuto; AxGrid NewAxes;
     SetTitle NewAxes "Histogram"; SetXlabel NewAxes ""; SetYlabel NewAxes "Entries";
     AxLegend NewAxes ["Entries = 2" ++ newline ++ "Mean Value = 0" ++ newline ++ "Std = 0"];
     SaveFig ".//Histogram"].
Proof. reflexivity. Qed.

(** ** Loops over charts *)

Lemma charts_nil : charts 0 [].
Proof. repeat split. Qed.

Lemma charts_app n m e1 e2 : charts n e1 -> charts m e2 -> charts (n + m) (e1 ++ e2).
Proof.
  intros (A1 & A2 & A3 & A4) (B1 & B2 & B3 & B4).
  unfold charts. rewrite !count_app. lia.
Qed.

Lemma skipped_nil : skipped 0 [].
Proof. reflexivity. Qed.

Lemma skipped_app n m e1 e2 : skipped n e1 -> skipped m e2 -> skipped (n + m) (e1 ++ e2).
Proof.
  unfold skipped. intros -> ->. rewrite repeat_app, concat_app. reflexivity.
Qed.

(** A loop whose body returns and adds calls that add up. *)
Lemma for_each_unit_run {A} (body : unit -> A -> M unit) (P : nat -> list event -> Prop) k :
  P 0%nat [] ->
  (forall n m e1 e2, P n e1 -> P m e2 -> P (n + m)%nat (e1 ++ e2)%list) ->
  (forall a w, exists evs, body tt a w = (Ok tt, grow w evs) /\ P k evs) ->
  forall l w, exists evs,
    for_each body l tt w = (Ok tt, grow w evs) /\ P (List.length l * k)%nat evs.
Proof.
  intros P0 Padd Hb. induction l as [|a l IH]; intros w; cbn [for_each].
  - exists []. rewrite grow_nil. split; [reflexivity|exact P0].
  - destruct (Hb a w) as (e1 & H1 & Q1).
    destruct (IH (grow w e1)) as (e2 & H2 & Q2).
    exists (e1 ++ e2)%list. unfold bindM. rewrite H1, H2, grow_grow.
    split; [reflexivity|]. cbn [List.length Nat.mul]. apply Padd; assumption.
Qed.

Lemma plot_channel_energy_dist_chart E df pad_num layer_num w :
  exists evs,
    plot_channel_energy_dist E df pad_num layer_num w = (Ok tt, grow w evs) /\
    charts 1 evs.
Proof.
  unfold plot_channel_energy_dist.
  match goal with |- context [plot_1d_hist E ?r] => set (a := r) end.
  destruct (null_or_empty (h_data a)) eqn:Hn.
  - exists [Warn "Cannot plot empty data."; CloseAll]. split.
    + unfold bindM. rewrite (plot_1d_hist_empty E a Hn).
      unfold emit, record. rewrite grow_grow. reflexivity.
    + repeat split.
  - destruct (h_data a) as [[|x t]|] eqn:Hd; try discriminate.
    destruct (plot_1d_hist_nonempty E a x t Hd) as (b & ms & ss & _ & _ & Hrun).
    eexists. split.
    + unfold bindM. rewrite Hrun. unfold emit, record. rewrite grow_grow. reflexivity.
    + destruct (hist_events_counts E a (x :: t) b
                  (hist_legend (Z.of_nat (List.length (x :: t))) ms ss))
        as (H1 & H2 & H3 & H4 & H5).
      unfold charts. rewrite !count_app, H1, H2, H3, H4, H5.
      change (h_ax a) with (@None nat). repeat split.
Qed.

(** X9: the channel loop of [plot_manager] returns normally for every
    dataset and configuration and leaves the arrays alone.  For each of the
    [len(LAYERS) * len(CHANNELS)] pairs it closes the figures once and either
    warns (no hit of that channel in that layer) or makes one figure, draws
    one histogram on it and saves it. *)
Theorem channel_loop_charts (E : env) (df : DataFrame) (w : world) :
  exists evs,
    plot_all_channels E df w = (Ok tt, grow w evs) /\
    count is_close evs = (List.length (LAYERS E) * List.length (CHANNELS E))%nat /\
    (count is_warn evs + count is_savefig evs)%nat
    = (List.length (LAYERS E) * List.length (CHANNELS E))%nat /\
    count is_subplots evs = count is_savefig evs /\
    count is_hist evs = count is_savefig evs.
Proof.
  unfold plot_all_channels.
  apply (for_each_unit_run _ charts (List.length (CHANNELS E)) charts_nil charts_app).
  intros layer w'. unfold plot_channels.
  destruct (for_each_unit_run
              (fun _ channel => plot_channel_energy_dist E df channel layer)
              charts 1 charts_nil charts_app
              (fun c w0 => plot_channel_energy_dist_chart E df c layer w0)
              (CHANNELS E) w') as (evs & Hrun & Hc).
  exists evs. split; [exact Hrun|]. rewrite Nat.mul_1_r in Hc. exact Hc.
Qed.

Lemma plot_channel_energy_dist_skipped E pad_num layer_num w :
  exists evs,
    plot_channel_energy_dist E [] pad_num layer_num w = (Ok tt, grow w evs) /\
    skipped 1 evs.
Proof.
  exists [Warn "Cannot plot empty data."; CloseAll]. split; [|reflexivity].
  change [Warn "Cannot plot empty data."; CloseAll]
    with ([Warn "Cannot plot empty data."] ++ [CloseAll])%list.
  rewrite <- grow_grow. reflexivity.
Qed.

(** X10: a dataset without rows (filtering and deduplicating no rows gives
    no rows).  The shower chart warns, draws and saves nothing and closes the
    figures; so does the channel loop for every layer and channel.  Both
    return normally. *)
Theorem empty_dataset_charts (E : env) (w : world) :
  plot_shower_energy_dist E [] w
  = (Ok tt, grow w [Warn "Cannot plot empty data."; CloseAll]) /\
  plot_all_channels E [] w
  = (Ok tt,
     grow w (List.concat (repeat [Warn "Cannot plot empty data."; CloseAll]
                            (List.length (LAYERS E) * List.length (CHANNELS E))))).
Proof.
  split.
  { change [Warn "Cannot plot empty data."; CloseAll]
      with ([Warn "Cannot plot empty data."] ++ [CloseAll])%list.
    rewrite <- grow_grow. reflexivity. }
  unfold plot_all_channels.
  destruct (for_each_unit_run
              (fun _ layer => plot_channels E [] layer (CHANNELS E))
              skipped (List.length (CHANNELS E)) skipped_nil skipped_app) with
    (l := LAYERS E) (w := w) as (evs & Hrun & Hs).
  - intros layer w'. unfold plot_channels.
    destruct (for_each_unit_run
                (fun _ channel => plot_channel_energy_dist E [] channel layer)
                skipped 1 skipped_nil skipped_app
                (fun c w0 => plot_channel_energy_dist_skipped E c layer w0)
                (CHANNELS E) w') as (evs & Hrun & Hc).
    exists evs. split; [exact Hrun|]. rewrite Nat.mul_1_r in Hc. exact Hc.
  - rewrite Hrun, Hs. reflexivity.
Qed.

(** ** One heat map *)

Lemma grid_events_kind ax e :
  In e (grid_events ax) ->
  target e = Some ax /\ is_subplots e = false /\ is_savefig e = false /\
  is_close e = false /\ is_image e = false.
Proof.
  assert (H : Forall (fun e => target e = Some ax /\ is_subplots e = false /\
                               is_savefig e = false /\ is_close e = false /\
                               is_image e = false) (grid_events ax)).
  { unfold grid_events. cbn. repeat constructor. }
  rewrite Forall_forall in H. apply H.
Qed.

(** The calls of [plot_heatmap], the array after it and the image returned. *)
Lemma plot_heatmap_events E data a w :
  plot_heatmap E data a w =
  (Ok (List.length (log w ++ if makes_figure a then [Subplots 1 1] else [])),
   {| heap := update (heap w) data (mask_zeros (heap w data));
      next_loc := next_loc w;
      log := log w ++ (if makes_figure a then [Subplots 1 1] else []) ++
             heat_image a data w :: heat_tail E a |}).
Proof.
  unfold plot_heatmap.
  set (first := match m_fig a, m_ax a with
                | Some _, Some n => ret (FigAxes n, false)
                | _, _ => emit (Subplots 1 1) ;;; ret (NewAxes, true)
                end).
  assert (H1 : logs first (heat_axes a, makes_figure a)
                    (if makes_figure a then [Subplots 1 1] else [])).
  { unfold first, heat_axes, makes_figure.
    destruct (m_fig a), (m_ax a); try apply logs_ret;
      (eapply logs_eq; [eapply logs_bind; [apply logs_emit|apply logs_ret]|reflexivity]). }
  rewrite (bindM_run _ _ _ _ _ (H1 w)). cbv beta iota.
  set (before := if makes_figure a then [Subplots 1 1] else []).
  set (tail := fun im : nat =>
                 set_heatmap_properties (heat_axes a) ;;;
                 style_fig (heat_axes a) (m_title a) (m_x_label a) (m_y_label a)
                           None None false None ;;;
                 when (makes_figure a)
                      (save_fig E (m_path a)
                         match m_out_filename a with
                         | Some f => f
                         | None => m_title a
                         end) ;;;
                 ret im).
  assert (Htail : forall im, logs (tail im) im (heat_tail E a)).
  { intros im. unfold tail, heat_tail, heat_file, when.
    destruct (makes_figure a);
      (eapply logs_eq;
       [eapply logs_bind; [apply logs_set_heatmap_properties|];
        eapply logs_bind; [apply logs_style_fig|];
        eapply logs_bind; [first [apply logs_save_fig|apply logs_ret]|apply logs_ret]
       |rewrite ?app_nil_r; reflexivity]). }
  set (w2 := {| heap := update (heap w) data (mask_zeros (heap w data));
                next_loc := next_loc w;
                log := log w ++ before |}).
  transitivity (tail (List.length (log w ++ before)) (grow w2 [heat_image a data w])).
  - unfold adjust_colors, imshow, bindM, read, write, ret, record, grow, update, heat_image.
    cbn [heap next_loc log]. rewrite Nat.eqb_refl. reflexivity.
  - rewrite Htail. unfold grow, w2. cbn [heap next_loc log].
    rewrite <- !app_assoc. reflexivity.
Qed.




(** ** The layer charts *)

(** What one layer adds to the figure of all layers. *)
Lemma plot_layer_energy_dist_calls E df layer_num path ax w :
  exists evs,
    plot_layer_energy_dist E df layer_num path ax w = (Ok tt, grow w evs) /\
    (count is_hist evs + count is_warn evs)%nat = 1%nat /\
    forall e, In e evs ->
      is_savefig e = false /\ is_subplots e = false /\ is_close e = false /\
      forall ax', target e = Some ax' -> ax' = FigAxes ax.
Proof.
  unfold plot_layer_energy_dist.
  match goal with |- context [plot_1d_hist E ?r] => set (a := r) end.
  destruct (null_or_empty (h_data a)) eqn:Hn.
  - exists [Warn "Cannot plot empty data."].
    split; [apply plot_1d_hist_empty, Hn|]. split; [reflexivity|].
    intros e [<-|[]]. repeat split. discriminate.
  - destruct (h_data a) as [[|x t]|] eqn:Hd; try discriminate.
    destruct (plot_1d_hist_nonempty E a x t Hd) as (b & ms & ss & _ & _ & Hrun).
    eexists. split; [apply Hrun|].
    destruct (hist_events_counts E a (x :: t) b
                (hist_legend (Z.of_nat (List.length (x :: t))) ms ss))
      as (H1 & H2 & H3 & H4 & H5).
    split; [rewrite H1, H2; reflexivity|].
    intros e He.
    assert (Ht : forall ax', target e = Some ax' -> ax' = FigAxes ax)
      by (intros ax'; apply (hist_events_target _ _ _ _ _ _ _ He)).
    revert He. unfold hist_events, hist_axes. change (h_ax a) with (Some ax).
    cbn [app In]. intros [<-|[<-|He]]; [repeat split; assumption..|].
    rewrite app_nil_r in He.
    apply style_events_kind in He as (_ & _ & _ & Hs & Hv & Hc & _).
    repeat split; assumption.
Qed.

Lemma layer_axes_small i : (i <= 10)%nat -> (layer_axes i <? n_axes)%nat = true.
Proof.
  intros H. apply Nat.ltb_lt. unfold layer_axes, n_axes.
  destruct (8 <=? i)%nat; lia.
Qed.

Lemma layer_axes_not_8 i : layer_axes i <> 8%nat.
Proof.
  unfold layer_axes. destruct (8 <=? i)%nat eqn:E.
  - apply Nat.leb_le in E. lia.
  - apply Nat.leb_gt in E. lia.
Qed.

Lemma panel_call_widen i n j m e :
  (i <= j)%nat -> (j + m <= i + n)%nat -> panel_call j m e -> panel_call i n e.
Proof.
  intros H1 H2 (A & B & C & D). repeat split; try assumption.
  intros ax Hax. destruct (D ax Hax) as (k & Hk & ->). exists k. split; [lia|reflexivity].
Qed.

(** One layer while there are axes left: its chart, then its title. *)
Lemma layer_step E df path i layer w :
  (i <= 10)%nat ->
  exists e1,
    bindI (index_axes (layer_axes i)) (fun ax =>
    bindI (run (plot_layer_energy_dist E df layer path ax)) (fun _ =>
    bindI (run (emit (SetTitle (FigAxes ax) ("Layer " ++ int_str layer))))
          (fun _ => retI (S i)))) w
    = (inl (S i),
       grow w (e1 ++ [SetTitle (FigAxes (layer_axes i)) ("Layer " ++ int_str layer)])) /\
    (count is_hist e1 + count is_warn e1)%nat = 1%nat /\
    Forall (panel_call i 1) e1.
Proof.
  intros Hi.
  destruct (plot_layer_energy_dist_calls E df layer path (layer_axes i) w)
    as (e1 & Hrun & Hcount & Hkind).
  exists e1. split; [|split; [exact Hcount|]].
  - unfold bindI, index_axes, run, retI, emit, record.
    rewrite (layer_axes_small i Hi), Hrun, grow_grow. reflexivity.
  - apply Forall_forall. intros e He. destruct (Hkind e He) as (A & B & C & D).
    repeat split; try assumption.
    intros ax Hax. exists i. split; [lia|]. apply D, Hax.
Qed.

Lemma bindI_run {A B} (m : MI A) (k : A -> MI B) w a w' :
  m w = (inl a, w') -> bindI m k w = k a w'.
Proof. intros H. unfold bindI. rewrite H. reflexivity. Qed.

Lemma for_eachI_app {A S} (body : S -> A -> MI S) l1 l2 : forall s w,
  for_eachI body (l1 ++ l2) s w
  = bindI (for_eachI body l1 s) (fun s' => for_eachI body l2 s') w.
Proof.
  induction l1 as [|a l1 IH]; intros s w; cbn [app for_eachI].
  - reflexivity.
  - unfold bindI. destruct (body s a w) as [[s'|e] w']; [|reflexivity].
    rewrite IH. reflexivity.
Qed.

(** The loop over the layers while there are axes left. *)
Lemma layer_loop E df path (layers : list Z) : forall i w,
  (i + List.length layers <= 11)%nat ->
  exists evs,
    for_eachI
      (fun (i : nat) layer =>
         bindI (index_axes (layer_axes i)) (fun ax =>
         bindI (run (plot_layer_energy_dist E df layer path ax)) (fun _ =>
         bindI (run (emit (SetTitle (FigAxes ax) ("Layer " ++ int_str layer))))
               (fun _ => retI (S i)))))
      layers i w = (inl (i + List.length layers)%nat, grow w evs) /\
    Forall (panel_call i (List.length layers)) evs /\
    (count is_hist evs + count is_warn evs)%nat = List.length layers /\
    (forall j layer, nth_error layers j = Some layer ->
       In (SetTitle (FigAxes (layer_axes (i + j))) ("Layer " ++ int_str layer)) evs).
Proof.
  induction layers as [|layer layers IH]; intros i w Hi; cbn [for_eachI].
  - exists []. rewrite grow_nil, Nat.add_0_r. split; [reflexivity|].
    split; [constructor|]. split; [reflexivity|].
    intros [|j] layer H; discriminate H.
  - cbn [List.length] in Hi.
    destruct (layer_step E df path i layer w ltac:(lia)) as (e1 & Hrun & Hcount & Hkind).
    destruct (IH (S i) (grow w (e1 ++ [SetTitle (FigAxes (layer_axes i))
                                               ("Layer " ++ int_str layer)]))
                 ltac:(lia))
      as (e2 & Hrest & Hpanel & Hc2 & Htitles).
    exists ((e1 ++ [SetTitle (FigAxes (layer_axes i)) ("Layer " ++ int_str layer)]) ++ e2)%list.
    split.
    { erewrite bindI_run; [|exact Hrun]. cbv beta. rewrite Hrest, grow_grow.
      cbn [List.length]. f_equal. f_equal. lia. }
    split.
    { rewrite !Forall_app. split; [split|].
      - eapply Forall_impl; [|exact Hkind].
        intros e. apply panel_call_widen; cbn [List.length]; lia.
      - repeat constructor. intros ax Hax. exists i.
        split; [cbn [List.length]; lia|]. cbn in Hax. congruence.
      - eapply Forall_impl; [|exact Hpanel].
        intros e. apply panel_call_widen; cbn [List.length]; lia. }
    split.
    { rewrite !count_app, !count_cons, !count_nil. cbn [is_hist is_warn List.length]. lia. }
    intros [|j] l Hl.
    + cbn in Hl. injection Hl as <-. rewrite Nat.add_0_r.
      rewrite !in_app_iff. left. right. left. reflexivity.
    + cbn [nth_error] in Hl. apply Htitles in Hl.
      replace (i + S j)%nat with (S i + j)%nat by lia.
      rewrite in_app_iff. right. exact Hl.
Qed.

(** The loop when the axes run out: the layers that fit are drawn, then the
    index fails. *)
Lemma layer_loop_fails E df path (layers : list Z) : forall i w,
  (i <= 11)%nat -> (12 <= i + List.length layers)%nat ->
  exists evs,
    for_eachI
      (fun (i : nat) layer =>
         bindI (index_axes (layer_axes i)) (fun ax =>
         bindI (run (plot_layer_energy_dist E df layer path ax)) (fun _ =>
         bindI (run (emit (SetTitle (FigAxes ax) ("Layer " ++ int_str layer))))
               (fun _ => retI (S i)))))
      layers i w = (inr IndexError, grow w evs) /\
    Forall (panel_call i (11 - i)) evs /\
    (count is_hist evs + count is_warn evs)%nat = (11 - i)%nat.
Proof.
  induction layers as [|layer layers IH]; intros i w Hi Hn; cbn [for_eachI].
  - cbn [List.length] in Hn. lia.
  - destruct (Nat.eq_dec i 11) as [->|Hne].
    + exists []. rewrite grow_nil. split; [reflexivity|]. split; [constructor|reflexivity].
    + cbn [List.length] in Hn.
      destruct (layer_step E df path i layer w ltac:(lia)) as (e1 & Hrun & Hcount & Hkind).
      destruct (IH (S i) (grow w (e1 ++ [SetTitle (FigAxes (layer_axes i))
                                                 ("Layer " ++ int_str layer)]))
                   ltac:(lia) ltac:(lia))
        as (e2 & Hrest & Hpanel & Hc2).
      exists ((e1 ++ [SetTitle (FigAxes (layer_axes i)) ("Layer " ++ int_str layer)]) ++ e2)%list.
      split.
      { erewrite bindI_run; [|exact Hrun]. cbv beta. rewrite Hrest, grow_grow. reflexivity. }
      split.
      { rewrite !Forall_app. split; [split|].
        - eapply Forall_impl; [|exact Hkind].
          intros e. apply panel_call_widen; lia.
        - repeat constructor. intros ax Hax. exists i.
          split; [lia|]. cbn in Hax. congruence.
        - eapply Forall_impl; [|exact Hpanel].
          intros e. apply panel_call_widen; lia. }
      rewrite !count_app, !count_cons, !count_nil. cbn [is_hist is_warn]. lia.
Qed.

Lemma bindI_fail {A B} (m : MI A) (k : A -> MI B) w e w' :
  m w = (inr e, w') -> bindI m k w = (inr e, w').
Proof. intros H. unfold bindI. rewrite H. reflexivity. Qed.

Lemma layer_chart_closing E w :
  run (emit (Delaxes 8) ;;; emit (Delaxes 11) ;;;
       save_fig E (run_path E) "Energy_dist_all_layers" ;;; emit CloseAll) w
  = (inl tt,
     grow w [Delaxes 8; Delaxes 11;
             SaveFig (verify_file_extension E
                        (run_path E ++ "/" ++ "Energy_dist_all_layers") ".png");
             CloseAll]).
Proof.
  unfold run.
  rewrite (logs_bind _ _ tt tt [Delaxes 8]
             [Delaxes 11;
              SaveFig (verify_file_extension E
                         (run_path E ++ "/" ++ "Energy_dist_all_layers") ".png");
              CloseAll]); [reflexivity|apply logs_emit|].
  apply (logs_bind _ _ tt tt [Delaxes 11]); [apply logs_emit|].
  apply (logs_bind _ _ tt tt [SaveFig _] [CloseAll]); [apply logs_save_fig|apply logs_emit].
Qed.

(** X13: the chart of all layers with at most eleven layers.  It returns
    normally; the figure of twelve panels is made first and saved once, after
    the panels 8 and 11 were removed, then closed.  Each layer gives one
    histogram or one warning (a layer without hits) and its title, on the
    panel at its position, skipping panel 8; nothing is saved or closed per
    layer.  Panel 8 is never drawn on, and panel 11 is not either when there
    are at most ten layers. *)
Theorem layer_charts_panels (E : env) (df : DataFrame) (w : world) :
  (List.length (LAYERS E) <= 11)%nat ->
  exists evs,
    plot_all_layers_energy_dist E df w
    = (inl tt,
       grow w (Subplots 3 4 :: evs ++
               [Delaxes 8; Delaxes 11;
                SaveFig (verify_file_extension E
                           (run_path E ++ "/" ++ "Energy_dist_all_layers") ".png");
                CloseAll])%list) /\
    (forall e, In e evs ->
       is_savefig e = false /\ is_subplots e = false /\ is_close e = false) /\
    (count is_hist evs + count is_warn evs)%nat = List.length (LAYERS E) /\
    (forall j layer, nth_error (LAYERS E) j = Some layer ->
       In (SetTitle (FigAxes (layer_axes j)) ("Layer " ++ int_str layer)) evs) /\
    (forall e ax, In e evs -> target e = Some ax ->
       exists j, (j < List.length (LAYERS E))%nat /\ ax = FigAxes (layer_axes j)) /\
    (forall e, In e evs -> target e <> Some (FigAxes 8)) /\
    ((List.length (LAYERS E) <= 10)%nat ->
     forall e, In e evs -> target e <> Some (FigAxes 11)).
Proof.
  intros Hn. unfold plot_all_layers_energy_dist. cbv zeta.
  erewrite bindI_run; [|reflexivity].
  destruct (layer_loop E df (run_path E) (LAYERS E) 0%nat (record (Subplots 3 4) w) Hn)
    as (evs & Hloop & Hpanel & Hcount & Htitles).
  erewrite bindI_run; [|exact Hloop].
  rewrite layer_chart_closing. unfold record. rewrite !grow_grow.
  rewrite Forall_forall in Hpanel.
  assert (Htarget : forall e ax, In e evs -> target e = Some ax ->
            exists j, (j < List.length (LAYERS E))%nat /\ ax = FigAxes (layer_axes j)).
  { intros e ax He Hax. destruct (Hpanel e He) as (_ & _ & _ & D).
    destruct (D ax Hax) as (j & Hj & ->). exists j. split; [lia|reflexivity]. }
  exists evs. split; [reflexivity|].
  split; [intros e He; destruct (Hpanel e He) as (A & B & C & _); auto|].
  split; [exact Hcount|]. split; [exact Htitles|]. split; [exact Htarget|]. split.
  - intros e He Hax. destruct (Htarget e _ He Hax) as (j & _ & Hj).
    injection Hj as Hj. symmetry in Hj. revert Hj. apply layer_axes_not_8.
  - intros Hten e He Hax. destruct (Htarget e _ He Hax) as (j & Hlt & Hj).
    injection Hj as Hj. unfold layer_axes in Hj.
    destruct (8 <=? j)%nat; lia.
Qed.

Lemma layer_charts_panels_witness :
  exists evs,
    plot_all_layers_energy_dist sample_env two_events empty_world
    = (inl tt,
       grow empty_world
            (Subplots 3 4 :: evs ++
               [Delaxes 8; Delaxes 11;
                SaveFig (verify_file_extension sample_env
                           (run_path sample_env ++ "/" ++ "Energy_dist_all_layers") ".png");
                CloseAll])%list) /\
    (forall e, In e evs ->
       is_savefig e = false /\ is_subplots e = false /\ is_close e = false) /\
    (count is_hist evs + count is_warn evs)%nat = List.length (LAYERS sample_env) /\
    (forall j layer, nth_error (LAYERS sample_env) j = Some layer ->
       In (SetTitle (FigAxes (layer_axes j)) ("Layer " ++ int_str layer)) evs) /\
    (forall e ax, In e evs -> target e = Some ax ->
       exists j, (j < List.length (LAYERS sample_env))%nat /\ ax = FigAxes (layer_axes j)) /\
    (forall e, In e evs -> target e <> Some (FigAxes 8)) /\
    ((List.length (LAYERS sample_env) <= 10)%nat ->
     forall e, In e evs -> target e <> Some (FigAxes 11)).
Proof. apply (layer_charts_panels sample_env two_events empty_world). simpl. lia. Defined.

(** X14: with eleven layers the chart and the title of the last layer go
    to panel 11, and that panel is removed before the figure is saved: the
    saved figure shows ten layers. *)
Theorem eleventh_layer_removed (E : env) (df : DataFrame) (w : world)
    (front : list Z) (layer : Z) :
  LAYERS E = (front ++ [layer])%list -> List.length front = 10%nat ->
  exists pre chart,
    plot_all_layers_energy_dist E df w
    = (inl tt,
       grow w (Subplots 3 4 :: pre ++ chart ++
               [SetTitle (FigAxes 11) ("Layer " ++ int_str layer);
                Delaxes 8; Delaxes 11;
                SaveFig (verify_file_extension E
                           (run_path E ++ "/" ++ "Energy_dist_all_layers") ".png");
                CloseAll])%list) /\
    (count is_hist chart + count is_warn chart)%nat = 1%nat /\
    (forall e ax, In e chart -> target e = Some ax -> ax = FigAxes 11).
Proof.
  intros HL Hlen. unfold plot_all_layers_energy_dist. cbv zeta. rewrite HL.
  erewrite bindI_run; [|reflexivity].
  destruct (layer_loop E df (run_path E) front 0%nat (record (Subplots 3 4) w)
              ltac:(lia)) as (pre & Hloop & _).
  rewrite Hlen in Hloop. cbn [Nat.add] in Hloop.
  destruct (layer_step E df (run_path E) 10 layer
              (grow (record (Subplots 3 4) w) pre) ltac:(lia))
    as (chart & Hstep & Hcount & Hkind).
  assert (Hall :
    for_eachI
      (fun (i : nat) layer =>
         bindI (index_axes (layer_axes i)) (fun ax =>
         bindI (run (plot_layer_energy_dist E df layer (run_path E) ax)) (fun _ =>
         bindI (run (emit (SetTitle (FigAxes ax) ("Layer " ++ int_str layer))))
               (fun _ => retI (S i)))))
      (front ++ [layer]) 0%nat (record (Subplots 3 4) w)
    = (inl 11%nat,
       grow (record (Subplots 3 4) w)
            (pre ++ chart ++ [SetTitle (FigAxes 11) ("Layer " ++ int_str layer)]))).
  { rewrite for_eachI_app. erewrite bindI_run; [|exact Hloop].
    cbn [for_eachI]. erewrite bindI_run; [|exact Hstep].
    unfold retI. rewrite grow_grow. reflexivity. }
  erewrite bindI_run; [|exact Hall].
  rewrite layer_chart_closing. unfold record. rewrite !grow_grow.
  exists pre, chart. split.
  - f_equal. f_equal. cbn [app]. rewrite <- !app_assoc. reflexivity.
  - split; [exact Hcount|].
    intros e ax He Hax. rewrite Forall_forall in Hkind.
    destruct (Hkind e He) as (_ & _ & _ & D).
    destruct (D ax Hax) as (j & Hj & ->). assert (j = 10%nat) as -> by lia. reflexivity.
Qed.

Lemma eleventh_layer_removed_witness :
  exists pre chart,
    plot_all_layers_energy_dist (with_layers (layers_upto 11)) two_events empty_world
    = (inl tt,
       grow empty_world
            (Subplots 3 4 :: pre ++ chart ++
               [SetTitle (FigAxes 11) ("Layer " ++ int_str 10);
                Delaxes 8; Delaxes 11;
                SaveFig (verify_file_extension (with_layers (layers_upto 11))
                           (run_path (with_layers (layers_upto 11)) ++ "/" ++
                            "Energy_dist_all_layers") ".png");
                CloseAll])%list) /\
    (count is_hist chart + count is_warn chart)%nat = 1%nat /\
    (forall e ax, In e chart -> target e = Some ax -> ax = FigAxes 11).
Proof.
  apply (eleventh_layer_removed (with_layers (layers_upto 11)) two_events empty_world
           (layers_upto 10) 10); reflexivity.
Defined.

(** X15: with twelve layers or more the chart of all layers fails with an
    IndexError at the twelfth: the eleven first layers were drawn, and the
    figure is neither saved nor closed. *)
Theorem too_many_layers (E : env) (df : DataFrame) (w : world) :
  (12 <= List.length (LAYERS E))%nat ->
  exists evs,
    plot_all_layers_energy_dist E df w = (inr IndexError, grow w (Subplots 3 4 :: evs)) /\
    (count is_hist evs + count is_warn evs)%nat = 11%nat /\
    (forall e, In e evs -> is_savefig e = false /\ is_close e = false).
Proof.
  intros Hn. unfold plot_all_layers_energy_dist. cbv zeta.
  erewrite bindI_run; [|reflexivity].
  destruct (layer_loop_fails E df (run_path E) (LAYERS E) 0%nat (record (Subplots 3 4) w)
              ltac:(lia) ltac:(lia)) as (evs & Hloop & Hpanel & Hcount).
  exists evs. split.
  - erewrite bindI_fail; [|exact Hloop]. unfold record. rewrite grow_grow. reflexivity.
  - split; [exact Hcount|]. rewrite Forall_forall in Hpanel.
    intros e He. destruct (Hpanel e He) as (A & _ & C & _). auto.
Qed.

Lemma too_many_layers_witness :
  exists evs,
    plot_all_layers_energy_dist (with_layers (layers_upto 12)) two_events empty_world
    = (inr IndexError, grow empty_world (Subplots 3 4 :: evs)) /\
    (count is_hist evs + count is_warn evs)%nat = 11%nat /\
    (forall e, In e evs -> is_savefig e = false /\ is_close e = false).
Proof.
  apply (too_many_layers (with_layers (layers_upto 12)) two_events empty_world).
  simpl. lia.
Defined.

(** X16: a configuration without layers.  The chart of all layers saves a
    figure with nothing on it; the frequency chart raises an
    UnboundLocalError at the colour bar, which needs the image of a layer,
    after the panels were removed: its figure is neither saved nor closed. *)
Theorem no_layers (E : env) (df : DataFrame) (w : world) :
  LAYERS E = [] ->
  plot_all_layers_energy_dist E df w
  = (inl tt,
     grow w [Subplots 3 4; Delaxes 8; Delaxes 11;
             SaveFig (verify_file_extension E
                        (run_path E ++ "/" ++ "Energy_dist_all_layers") ".png");
             CloseAll]) /\
  plot_channel_frequency E df w
  = (Raise UnboundLocalError, grow w [Subplots 3 4; Delaxes 8; Delaxes 11]).
Proof.
  intros HL. split.
  - unfold plot_all_layers_energy_dist. cbv zeta. rewrite HL.
    erewrite bindI_run; [|reflexivity]. cbn [for_eachI].
    erewrite bindI_run; [|reflexivity].
    rewrite layer_chart_closing. unfold record. rewrite grow_grow. reflexivity.
  - unfold plot_channel_frequency. cbv zeta. rewrite HL. cbn [for_each].
    unfold bindM, emit, ret, lift, record. cbn [snd]. rewrite !grow_grow. reflexivity.
Qed.

Lemma no_layers_witness :
  plot_all_layers_energy_dist (with_layers []) two_events empty_world
  = (inl tt,
     grow empty_world
          [Subplots 3 4; Delaxes 8; Delaxes 11;
           SaveFig (verify_file_extension (with_layers [])
                      (run_path (with_layers []) ++ "/" ++ "Energy_dist_all_layers") ".png");
           CloseAll]) /\
  plot_channel_frequency (with_layers []) two_events empty_world
  = (Raise UnboundLocalError, grow empty_world [Subplots 3 4; Delaxes 8; Delaxes 11]).
Proof. apply (no_layers (with_layers []) two_events empty_world). reflexivity. Defined.

(** ** The frequency chart *)

Lemma heat_tail_kind E a e :
  makes_figure a = false -> In e (heat_tail E a) ->
  target e = Some (heat_axes a) /\ is_subplots e = false /\ is_savefig e = false /\
  is_close e = false /\ is_image e = false.
Proof.
  intros Hm. unfold heat_tail. rewrite Hm, app_nil_r, in_app_iff.
  intros [H|H].
  - apply grid_events_kind, H.
  - apply style_events_kind in H. tauto.
Qed.

Lemma update_same h l g : update h l g l = g.
Proof. unfold update. rewrite Nat.eqb_refl. reflexivity. Qed.

(** The image of one layer of the frequency chart. *)
Lemma frequency_step E df path i o layer w :
  exists tail,
    (let '(i, _) := (i, o) : nat * option nat in
     let ax_num := if (8 <=? i)%nat then (i + 1)%nat else i in
     freq <~ alloc (channel_frequency E df layer) ;;
     im <~ plot_heatmap E freq
             {| m_fig := Some 0%nat; m_ax := Some ax_num; m_log := false;
                m_title := "Heatmap"; m_x_label := "Column";
                m_y_label := "Row"; m_path := path;
                m_out_filename := None;
                m_v_min := Some 0%Q; m_v_max := Some 1%Q |} ;;
     emit (SetTitle (FigAxes ax_num) ("Layer " ++ int_str layer)) ;;;
     ret (S i, Some im)) w
    = (Ok (S i, Some (List.length (log w))),
       {| heap := update (update (heap w) (next_loc w) (channel_frequency E df layer))
                         (next_loc w) (mask_zeros (channel_frequency E df layer));
          next_loc := S (next_loc w);
          log := log w ++
                 Imshow (FigAxes (layer_axes i)) (next_loc w)
                        (mask_zeros (channel_frequency E df layer))
                        (Some 0%Q) (Some 1%Q)
                        {| cmap_name := "jet"; cmap_under := Some "white" |} None
                 :: tail |}) /\
    In (SetTitle (FigAxes (layer_axes i)) ("Layer " ++ int_str layer)) tail /\
    forall e, In e tail ->
      is_subplots e = false /\ is_savefig e = false /\ is_close e = false /\
      is_image e = false /\
      forall ax, target e = Some ax -> ax = FigAxes (layer_axes i).
Proof.
  cbv zeta beta iota. fold (layer_axes i).
  set (args := {| m_fig := Some 0%nat; m_ax := Some (layer_axes i); m_log := false;
                  m_title := "Heatmap"; m_x_label := "Column";
                  m_y_label := "Row"; m_path := path;
                  m_out_filename := None;
                  m_v_min := Some 0%Q; m_v_max := Some 1%Q |}).
  exists (heat_tail E args ++
          [SetTitle (FigAxes (layer_axes i)) ("Layer " ++ int_str layer)])%list.
  split; [|split].
  - unfold bindM at 1. unfold alloc at 1.
    unfold bindM at 1. rewrite plot_heatmap_events.
    change (makes_figure args) with false. cbn [app heap next_loc log].
    unfold bindM, emit, ret, record, grow, heat_image. cbn [heap next_loc log].
    change (heat_axes args) with (FigAxes (layer_axes i)).
    change (m_v_min args) with (Some 0%Q). change (m_v_max args) with (Some 1%Q).
    change (m_log args) with false. cbv iota.
    rewrite !update_same, app_nil_r, <- !app_assoc. reflexivity.
  - rewrite in_app_iff. right. left. reflexivity.
  - intros e He. apply in_app_iff in He as [He|[<-|[]]].
    + apply (heat_tail_kind E args e eq_refl) in He as (A & B & C & D & F).
      repeat split; try assumption. intros ax Hax. change (heat_axes args)
        with (FigAxes (layer_axes i)) in A. congruence.
    + repeat split. intros ax Hax. cbn in Hax. congruence.
Qed.

Lemma nth_error_app_left {X} (l l' : list X) n x :
  nth_error l n = Some x -> nth_error (l ++ l') n = Some x.
Proof.
  intros H. rewrite nth_error_app1; [exact H|].
  apply nth_error_Some. congruence.
Qed.

(** The loop of the frequency chart: one new array and one image per
    layer; the arrays that were there are left alone; the image kept for the
    colour bar is the one of the last layer. *)
Lemma frequency_run E df path (layers : list Z) : forall i o w,
  exists evs st' w',
    for_each
      (fun (st : nat * option nat) layer =>
         let '(i, _) := st in
         let ax_num := if (8 <=? i)%nat then (i + 1)%nat else i in
         freq <~ alloc (channel_frequency E df layer) ;;
         im <~ plot_heatmap E freq
                 {| m_fig := Some 0%nat; m_ax := Some ax_num; m_log := false;
                    m_title := "Heatmap"; m_x_label := "Column";
                    m_y_label := "Row"; m_path := path;
                    m_out_filename := None;
                    m_v_min := Some 0%Q; m_v_max := Some 1%Q |} ;;
         emit (SetTitle (FigAxes ax_num) ("Layer " ++ int_str layer)) ;;;
         ret (S i, Some im))
      layers (i, o) w = (Ok st', w') /\
    log w' = (log w ++ evs)%list /\
    next_loc w' = (next_loc w + List.length layers)%nat /\
    (forall l, (l < next_loc w)%nat -> heap w' l = heap w l) /\
    count is_image evs = List.length layers /\
    (forall e, In e evs ->
       is_subplots e = false /\ is_savefig e = false /\ is_close e = false) /\
    (forall j layer, nth_error layers j = Some layer ->
       exists l,
         In (Imshow (FigAxes (layer_axes (i + j))) l
                    (mask_zeros (channel_frequency E df layer))
                    (Some 0%Q) (Some 1%Q)
                    {| cmap_name := "jet"; cmap_under := Some "white" |} None) evs /\
         In (SetTitle (FigAxes (layer_axes (i + j))) ("Layer " ++ int_str layer)) evs) /\
    (layers = [] -> snd st' = o) /\
    (forall front layer, layers = (front ++ [layer])%list ->
       exists im l,
         snd st' = Some im /\
         nth_error (log w') im
         = Some (Imshow (FigAxes (layer_axes (i + List.length front))) l
                        (mask_zeros (channel_frequency E df layer))
                        (Some 0%Q) (Some 1%Q)
                        {| cmap_name := "jet"; cmap_under := Some "white" |} None)).
Proof.
  induction layers as [|layer layers IH]; intros i o w; cbn [for_each].
  - exists [], (i, o), w. rewrite app_nil_r, Nat.add_0_r.
    split; [reflexivity|]. split; [reflexivity|]. split; [reflexivity|].
    split; [reflexivity|]. split; [reflexivity|]. split; [intros e []|].
    split; [intros [|j] l H; discriminate H|]. split; [reflexivity|].
    intros [|x front] l H; discriminate H.
  - destruct (frequency_step E df path i o layer w) as (tail & Hstep & Htitle & Hkind).
    match type of Hstep with _ = (_, ?v) => set (w1 := v) in * end.
    destruct (IH (S i) (Some (List.length (log w))) w1)
      as (e2 & st' & w' & Hrest & Hlog & Hnext & Hheap & Hcount & Hquiet & Himg & Hnil & Hlast).
    set (shown := Imshow (FigAxes (layer_axes i)) (next_loc w)
                         (mask_zeros (channel_frequency E df layer))
                         (Some 0%Q) (Some 1%Q)
                         {| cmap_name := "jet"; cmap_under := Some "white" |} None) in *.
    exists ((shown :: tail) ++ e2)%list, st', w'.
    split; [erewrite bindM_run; [exact Hrest|exact Hstep]|].
    split; [rewrite Hlog; unfold w1; cbn [log]; rewrite <- app_assoc; reflexivity|].
    split; [rewrite Hnext; unfold w1; cbn [next_loc List.length]; lia|].
    split.
    { intros l Hl. rewrite Hheap by (unfold w1; cbn [next_loc]; lia).
      unfold w1. cbn [heap]. unfold update.
      destruct (Nat.eqb_spec l (next_loc w)); [lia|reflexivity]. }
    split.
    { rewrite count_app, count_cons, Hcount. cbn [is_image List.length].
      rewrite count_none; [reflexivity|]. intros e He. apply Hkind in He. tauto. }
    split.
    { intros e He. apply in_app_iff in He as [[<-|He]|He].
      - repeat split.
      - apply Hkind in He. tauto.
      - apply Hquiet, He. }
    split.
    { intros [|j] l Hl.
      - cbn in Hl. injection Hl as <-. rewrite Nat.add_0_r. exists (next_loc w). split.
        + left. reflexivity.
        + apply in_app_iff. left. right. exact Htitle.
      - cbn [nth_error] in Hl. destruct (Himg j l Hl) as (l' & H1 & H2).
        replace (i + S j)%nat with (S i + j)%nat by lia.
        exists l'. split; apply in_app_iff; right; assumption. }
    split; [discriminate|].
    intros [|x front] l Hl.
    + cbn [app] in Hl. injection Hl as -> ->.
      exists (List.length (log w)), (next_loc w).
      rewrite (Hnil eq_refl). split; [reflexivity|].
      rewrite Hlog. apply nth_error_app_left. unfold w1. cbn [log].
      rewrite nth_error_app2 by lia. rewrite Nat.sub_diag, Nat.add_0_r. reflexivity.
    + cbn [app] in Hl. injection Hl as <- ->.
      destruct (Hlast front l eq_refl) as (im & l' & H1 & H2).
      exists im, l'. split; [exact H1|].
      cbn [List.length]. replace (i + S (List.length front))%nat
        with (S i + List.length front)%nat by lia. exact H2.
Qed.

(** X17: the frequency chart with one to eleven layers (the twelve axes
    allow no more) returns normally.  The figure is made first; each layer gets a new array holding its
    frequencies, one image of that array (masked, range [0, 1]) and its title
    on the panel at its position; the arrays that existed are left alone.
    Then the panels 8 and 11 are removed, the colour bar is made from the
    image of the last layer, and the figure is saved once and closed. *)
Theorem frequency_chart_saved (E : env) (df : DataFrame) (w : world)
    (front : list Z) (last_layer : Z) :
  LAYERS E = (front ++ [last_layer])%list -> (List.length front <= 10)%nat ->
  exists evs im l,
    fst (plot_channel_frequency E df w) = Ok tt /\
    log (snd (plot_channel_frequency E df w))
    = (log w ++ Subplots 3 4 :: evs ++
         [Delaxes 8; Delaxes 11; Colorbar im;
          SaveFig (verify_file_extension E
                     (run_path E ++ "/" ++ "Channels_frequency_all_layers") ".png");
          CloseAll])%list /\
    nth_error (log (snd (plot_channel_frequency E df w))) im
    = Some (Imshow (FigAxes (layer_axes (List.length front))) l
                   (mask_zeros (channel_frequency E df last_layer))
                   (Some 0%Q) (Some 1%Q)
                   {| cmap_name := "jet"; cmap_under := Some "white" |} None) /\
    count is_image evs = List.length (LAYERS E) /\
    (forall e, In e evs ->
       is_subplots e = false /\ is_savefig e = false /\ is_close e = false) /\
    (forall j layer, nth_error (LAYERS E) j = Some layer ->
       exists l',
         In (Imshow (FigAxes (layer_axes j)) l'
                    (mask_zeros (channel_frequency E df layer))
                    (Some 0%Q) (Some 1%Q)
                    {| cmap_name := "jet"; cmap_under := Some "white" |} None) evs /\
         In (SetTitle (FigAxes (layer_axes j)) ("Layer " ++ int_str layer)) evs) /\
    next_loc (snd (plot_channel_frequency E df w))
    = (next_loc w + List.length (LAYERS E))%nat /\
    (forall l', (l' < next_loc w)%nat ->
       heap (snd (plot_channel_frequency E df w)) l' = heap w l').
Proof.
  intros HL _. unfold plot_channel_frequency. cbv zeta.
  rewrite (bindM_run _ _ w tt (record (Subplots 3 4) w)) by reflexivity.
  destruct (frequency_run E df (run_path E) (LAYERS E) 0%nat None
              (record (Subplots 3 4) w))
    as (evs & [i' o'] & w' & Hloop & Hlog & Hnext & Hheap & Hcount & Hquiet & Himg & _ & Hlast).
  rewrite (bindM_run _ _ _ _ _ Hloop).
  destruct (Hlast front last_layer HL) as (im & l & Him & Hnth).
  cbn [snd] in Him. subst o'. cbn [snd Nat.add] in *.
  unfold record, grow in Hlog. cbn [log] in Hlog.
  exists evs, im, l.
  unfold bindM, emit, save_fig, emit, record, grow. cbn [fst snd log heap next_loc].
  split; [reflexivity|].
  split; [rewrite Hlog, <- !app_assoc; reflexivity|].
  split; [rewrite <- !app_assoc; repeat apply nth_error_app_left; exact Hnth|].
  split; [exact Hcount|]. split; [exact Hquiet|]. split; [exact Himg|].
  split; [exact Hnext|exact Hheap].
Qed.

Lemma frequency_chart_saved_witness :
  exists evs im l,
    fst (plot_channel_frequency sample_env two_events empty_world) = Ok tt /\
    log (snd (plot_channel_frequency sample_env two_events empty_world))
    = (log empty_world ++ Subplots 3 4 :: evs ++
         [Delaxes 8; Delaxes 11; Colorbar im;
          SaveFig (verify_file_extension sample_env
                     (run_path sample_env ++ "/" ++ "Channels_frequency_all_layers") ".png");
          CloseAll])%list /\
    nth_error (log (snd (plot_channel_frequency sample_env two_events empty_world))) im
    = Some (Imshow (FigAxes (layer_axes (List.length (@nil Z)))) l
                   (mask_zeros (channel_frequency sample_env two_events 0))
                   (Some 0%Q) (Some 1%Q)
                   {| cmap_name := "jet"; cmap_under := Some "white" |} None) /\
    count is_image evs = List.length (LAYERS sample_env) /\
    (forall e, In e evs ->
       is_subplots e = false /\ is_savefig e = false /\ is_close e = false) /\
    (forall j layer, nth_error (LAYERS sample_env) j = Some layer ->
       exists l',
         In (Imshow (FigAxes (layer_axes j)) l'
                    (mask_zeros (channel_frequency sample_env two_events layer))
                    (Some 0%Q) (Some 1%Q)
                    {| cmap_name := "jet"; cmap_under := Some "white" |} None) evs /\
         In (SetTitle (FigAxes (layer_axes j)) ("Layer " ++ int_str layer)) evs) /\
    next_loc (snd (plot_channel_frequency sample_env two_events empty_world))
    = (next_loc empty_world + List.length (LAYERS sample_env))%nat /\
    (forall l', (l' < next_loc empty_world)%nat ->
       heap (snd (plot_channel_frequency sample_env two_events empty_world)) l'
       = heap empty_world l').
Proof.
  apply (frequency_chart_saved sample_env two_events empty_world [] 0);
    [reflexivity | simpl; lia].
Defined.
